(** * The telemetry agent [collector.py]: a shallow embedding and its properties

    The agent samples CPU, memory, disks, processes and system events of a host
    every polling cycle, assembles a snapshot and posts it to an ingestion
    endpoint.  This file follows [agent/python_agent/collector.py] function by
    function:

    - Python [float] is IEEE binary64, here Rocq's primitive [float];
    - Python [int] is [Z];
    - an exception is a value of [exn]; a computation that may raise returns
      [res A];
    - the two module globals [_PREVIOUS_CPU_TIMES] and [_PREVIOUS_COLLECTED_AT]
      are threaded explicitly ([globals]);
    - what the interpreter's library and the operating system answer (the exit
      status and output of a command, [json.loads], [float(str)], the clock,
      the resolver, the HTTP endpoint, the wait of [time.sleep]) is a
      parameter: the class [PyLib] and the record [host]. *)

From Stdlib Require Import ZArith Floats Uint63 String List Lia Sorted DecimalString.
From stdpp Require Import gmap strings.

Set Warnings "-register-all".

Local Open Scope string_scope.
Local Open Scope Z_scope.

(** ** Exceptions *)

Inductive exn_class :=
  | BaseException | KeyboardInterrupt
  | Exception
  | RuntimeError | RecursionError
  | MemoryError
  | OSError | FileNotFoundError | PermissionError | TimeoutError
  | gaierror | URLError | HTTPError
  | ValueError | JSONDecodeError
  | TypeError | AttributeError | IndexError
  | ArithmeticError | OverflowError | ZeroDivisionError.

Record exn := mk_exn { exn_cls : exn_class; exn_msg : string }.

(** The direct base class, as in the Python class hierarchy. *)
Definition base_class (c : exn_class) : option exn_class :=
  match c with
  | BaseException => None
  | KeyboardInterrupt => Some BaseException
  | Exception => Some BaseException
  | RuntimeError => Some Exception
  | RecursionError => Some RuntimeError
  | MemoryError => Some Exception
  | OSError => Some Exception
  | FileNotFoundError | PermissionError | TimeoutError => Some OSError
  | gaierror | URLError => Some OSError
  | HTTPError => Some URLError
  | ValueError => Some Exception
  | JSONDecodeError => Some ValueError
  | TypeError | AttributeError | IndexError => Some Exception
  | ArithmeticError => Some Exception
  | OverflowError | ZeroDivisionError => Some ArithmeticError
  end.

Definition exn_class_eqb (c d : exn_class) : bool :=
  match c, d with
  | BaseException, BaseException | KeyboardInterrupt, KeyboardInterrupt
  | Exception, Exception | RuntimeError, RuntimeError
  | RecursionError, RecursionError | MemoryError, MemoryError
  | OSError, OSError | FileNotFoundError, FileNotFoundError
  | PermissionError, PermissionError | TimeoutError, TimeoutError
  | gaierror, gaierror | URLError, URLError | HTTPError, HTTPError
  | ValueError, ValueError | JSONDecodeError, JSONDecodeError
  | TypeError, TypeError | AttributeError, AttributeError
  | IndexError, IndexError | ArithmeticError, ArithmeticError
  | OverflowError, OverflowError | ZeroDivisionError, ZeroDivisionError => true
  | _, _ => false
  end.

(** [issubclass c d], by walking up at most four bases (the hierarchy above is
    four levels deep). *)
Fixpoint issubclass_fuel (fuel : nat) (c d : exn_class) : bool :=
  exn_class_eqb c d ||
  match fuel with
  | O => false
  | S fuel' =>
      match base_class c with
      | Some b => issubclass_fuel fuel' b d
      | None => false
      end
  end.

Definition issubclass : exn_class -> exn_class -> bool := issubclass_fuel 4.

(** [except (C1, ..., Cn)] catches [e]. *)
Definition caught_by (handlers : list exn_class) (e : exn) : bool :=
  existsb (issubclass (exn_cls e)) handlers.

Inductive res (A : Type) : Type :=
  | Return (a : A)
  | Raise (e : exn).
Arguments Return {A} a.
Arguments Raise {A} e.

#[global] Instance res_ret : MRet res := fun A a => Return a.
#[global] Instance res_bind : MBind res := fun A B f m =>
  match m with
  | Return a => f a
  | Raise e => Raise e
  end.

Definition raise {A : Type} (c : exn_class) (msg : string) : res A :=
  Raise (mk_exn c msg).

(** [try: body except handlers: fallback] where the handler returns a value. *)
Definition try_except {A : Type} (body : res A) (handlers : list exn_class)
    (fallback : A) : res A :=
  match body with
  | Return a => Return a
  | Raise e => if caught_by handlers e then Return fallback else Raise e
  end.

(** ** Python numbers *)

Module Py.

(** [max(a, b)] on two arguments: the first one unless the second is greater. *)
Definition max (a b : float) : float := if (a <? b)%float then b else a.

(** [float.__truediv__]: a zero divisor (of either sign) raises. *)
Definition truediv (a b : float) : res float :=
  if (b =? 0)%float then raise ZeroDivisionError "float division by zero"
  else Return (a / b)%float.

(** [float(n)] for an [int]: the nearest double, ties to even, and
    [OverflowError] when that is not finite. *)
Definition float_of_int (n : Z) : res float :=
  match binary_normalize prec emax n 0 false with
  | S754_infinity _ => raise OverflowError "int too large to convert to float"
  | s => Return (SF2Prim s)
  end.

(** [int(x)] for a [float]: truncation toward zero. *)
Definition int_of_float (x : float) : res Z :=
  match Prim2SF x with
  | S754_nan => raise ValueError "cannot convert float NaN to integer"
  | S754_infinity _ => raise OverflowError "cannot convert float infinity to integer"
  | S754_zero _ => Return 0
  | S754_finite s m e =>
      let a := match e with
               | Zneg k => Zpos m / 2 ^ Zpos k
               | _ => Zpos m * 2 ^ e
               end in
      Return (if s then - a else a)
  end.

Definition isnan (x : float) : bool := negb (x =? x)%float.

(** What [time.sleep(secs)] does with a [float] before it waits: the number
    must not be NaN, must fit, in nanoseconds, a signed 64-bit integer
    ([inf] does not), and must not be negative. *)
Definition sleep_check (secs : float) : res unit :=
  if isnan secs then raise ValueError "Invalid value NaN (not a number)"
  else
    let ns := (secs * 1000000000)%float in
    if (ns <? -9223372036854775808)%float || (9223372036854775808 <=? ns)%float
    then raise OverflowError "timestamp too large to convert to C _PyTime_t"
    else if (ns <? 0)%float then raise ValueError "sleep length must be non-negative"
    else Return tt.

(** [str(n)] for an [int]. *)
Definition str_of_int (n : Z) : string := NilZero.string_of_int (Z.to_int n).

(** [sep.join(parts)]. *)
Definition join (sep : string) (parts : list string) : string :=
  String.concat sep parts.

(** [line.split("=", 1)[1]]: the text after the first "=", [IndexError] when
    there is none. *)
Fixpoint split_eq_1 (line : string) : res string :=
  match line with
  | EmptyString => raise IndexError "list index out of range"
  | String c rest => if Ascii.eqb c (Ascii.ascii_of_nat 61) then Return rest else split_eq_1 rest
  end.

Definition startswith (line key : string) : bool := String.prefix key line.

End Py.

(** ** JSON documents as [json.loads] returns them *)

Inductive json :=
  | JNull
  | JBool (b : bool)
  | JInt (n : Z)
  | JFloat (x : float)
  | JStr (s : string)
  | JArr (items : list json)
  | JObj (fields : list (string * json)).

(** [d.get(key, default)] on a [dict] whose items are [fields]. *)
Fixpoint dict_get (fields : list (string * json)) (key : string) (default : json) : json :=
  match fields with
  | [] => default
  | (k, v) :: rest => if String.eqb k key then v else dict_get rest key default
  end.

(** [type(obj).__name__]. *)
Definition type_name (obj : json) : string :=
  match obj with
  | JNull => "NoneType"
  | JBool _ => "bool"
  | JInt _ => "int"
  | JFloat _ => "float"
  | JStr _ => "str"
  | JArr _ => "list"
  | JObj _ => "dict"
  end.

(** [obj.get(key, default)]: only a [dict] has the method. *)
Definition get (obj : json) (key : string) (default : json) : res json :=
  match obj with
  | JObj fields => Return (dict_get fields key default)
  | _ => raise AttributeError ("'" +:+ type_name obj +:+ "' object has no attribute 'get'")
  end.

Definition is_None (v : json) : bool :=
  match v with JNull => true | _ => false end.

(** Truth value of a document, as [or] tests it. *)
Definition truthy (v : json) : bool :=
  match v with
  | JNull => false
  | JBool b => b
  | JInt n => negb (n =? 0)
  | JFloat x => negb (x =? 0)%float
  | JStr s => negb (String.eqb s "")
  | JArr items => match items with [] => false | _ => true end
  | JObj fields => match fields with [] => false | _ => true end
  end.

(** ** The records of a snapshot *)

Record memory_reading := {
  total_bytes : option float;
  used_bytes : option float }.

Record disk_usage := {
  device : string;
  disk_total_bytes : float;
  free_bytes : float }.

Record process_sample := {
  pid : Z;
  name : string;
  cpu_percent : option float;
  memory_mb : option float }.

Record event_record := {
  timestamp : json;
  id : option string;
  level : json;
  source : json;
  message : json }.

Record metrics := {
  metrics_cpu_percent : option float;
  memory : memory_reading;
  disks : list disk_usage }.

Record snapshot := {
  agent_id : string;
  hostname : string;
  ip : option string;
  collected_at : string;
  snapshot_metrics : metrics;
  processes : list process_sample;
  events : list event_record }.

(** ** The interpreter's library *)

Class PyLib := {
  (** [json.loads]: the document, or what it raises ([json.JSONDecodeError] on
      malformed text, [RecursionError] on text nested too deep, ...). *)
  json_loads : string -> res json;
  (** [json.dumps] of the payload. *)
  json_dumps : snapshot -> res string;
  (** [float(s)] for a [str]; [None] is [ValueError]. *)
  float_of_str : string -> option float;
  (** [int(s)] for a [str]; [None] is [ValueError]. *)
  int_of_str : string -> option Z;
  (** [str(v)]. *)
  str : json -> string;
  (** [s.splitlines()] and [s.strip()]. *)
  splitlines : string -> list string;
  strip : string -> string;
  (** [time.strftime("%Y-%m-%dT%H:%M:%SZ", time.gmtime(t))]. *)
  strftime_utc : float -> string }.

(** ** The host *)

(** What [subprocess.run(command, capture_output=True, text=True, check=False)]
    does: it raises when the program cannot be started, and otherwise returns
    the completed process. *)
Inductive run_outcome :=
  | SpawnFails (e : exn)
  | Completed (returncode : Z) (stdout stderr : string).

(** The request built by [_post_snapshot]. *)
Record request := {
  url : string;
  data : string;
  headers : list (string * string);
  method : string;
  timeout : Z }.

(** What [urllib.request.urlopen] does with it. *)
Inductive urlopen_outcome :=
  | Response (status : Z)
  | UrlopenRaises (e : exn).

Record host := {
  subprocess_run : list string -> run_outcome;
  gethostname : string;
  gethostbyname : string -> res string;
  os_cpu_count : option Z;
  urlopen : request -> urlopen_outcome;
  (** The wait of [time.sleep]: it returns, or a signal handler raises
      during it ([KeyboardInterrupt]). *)
  sleep : float -> res unit }.

(** The module constants read from the environment at import. *)
Record config := {
  INGEST_URL : string;
  INGEST_SECRET : string;
  AGENT_ID : string;
  POLL_INTERVAL : float;
  MAX_PROCESSES : Z;
  MAX_EVENTS : Z }.

(** The two module globals. *)
Record globals := {
  _PREVIOUS_CPU_TIMES : gmap Z float;
  _PREVIOUS_COLLECTED_AT : option float }.

Definition initial_globals : globals :=
  {| _PREVIOUS_CPU_TIMES := ∅; _PREVIOUS_COLLECTED_AT := None |}.

(** ** Conversions applied to the fields of a document *)

Section Conversions.
Context `{PyLib}.

(** [float(v)]. *)
Definition py_float (v : json) : res float :=
  match v with
  | JBool b => Return (if b then 1%float else 0%float)
  | JInt n => Py.float_of_int n
  | JFloat x => Return x
  | JStr s =>
      match float_of_str s with
      | Some x => Return x
      | None => raise ValueError "could not convert string to float"
      end
  | JNull | JArr _ | JObj _ =>
      raise TypeError "float() argument must be a string or a real number"
  end.

(** [int(v)]. *)
Definition py_int (v : json) : res Z :=
  match v with
  | JBool b => Return (if b then 1 else 0)
  | JInt n => Return n
  | JFloat x => Py.int_of_float x
  | JStr s =>
      match int_of_str s with
      | Some n => Return n
      | None => raise ValueError "invalid literal for int() with base 10"
      end
  | JNull | JArr _ | JObj _ =>
      raise TypeError "int() argument must be a string, a bytes-like object or a real number"
  end.

End Conversions.

(** ** The collectors *)

Section Collector.
Context `{PyLib} (h : host) (cfg : config).

Definition _run_command (command : list string) : res string :=
  match subprocess_run h command with
  | SpawnFails e => Raise e
  | Completed returncode stdout stderr =>
      if negb (returncode =? 0) then
        raise RuntimeError
          ("Command " +:+ Py.join " " command +:+ " failed: " +:+ strip stderr)
      else Return (strip stdout)
  end.

Definition _run_powershell (script : string) : res string :=
  _run_command ["powershell"; "-NoProfile"; "-Command"; script].

(** The [for] loop of [_collect_cpu_percent]. *)
Fixpoint load_percentage (lines : list string) : res (option float) :=
  match lines with
  | [] => Return None
  | line :: rest =>
      if Py.startswith line "LoadPercentage=" then
        value ← Py.split_eq_1 line;
        Return (float_of_str (strip value))
      else load_percentage rest
  end.

Definition _collect_cpu_percent : res (option float) :=
  match _run_command ["wmic"; "cpu"; "get"; "LoadPercentage"; "/value"] with
  | Raise e => if caught_by [RuntimeError] e then Return None else Raise e
  | Return output => load_percentage (splitlines output)
  end.

(** One turn of the [for] loop of [_collect_memory] on [(total_kb, free_kb)]. *)
Definition memory_line (kb : option float * option float) (line : string)
    : res (option float * option float) :=
  if Py.startswith line "TotalVisibleMemorySize=" then
    value ← Py.split_eq_1 line;
    Return (float_of_str (strip value), kb.2)
  else if Py.startswith line "FreePhysicalMemory=" then
    value ← Py.split_eq_1 line;
    Return (kb.1, float_of_str (strip value))
  else Return kb.

Fixpoint memory_lines (kb : option float * option float) (lines : list string)
    : res (option float * option float) :=
  match lines with
  | [] => Return kb
  | line :: rest => kb' ← memory_line kb line; memory_lines kb' rest
  end.

Definition unavailable_memory : memory_reading :=
  {| total_bytes := None; used_bytes := None |}.

Definition _collect_memory : res memory_reading :=
  match _run_command ["wmic"; "OS"; "get";
                      "FreePhysicalMemory,TotalVisibleMemorySize"; "/value"] with
  | Raise e => if caught_by [RuntimeError] e then Return unavailable_memory else Raise e
  | Return output =>
      kb ← memory_lines (None, None) (splitlines output);
      match kb with
      | (Some total_kb, Some free_kb) =>
          let total_bytes := (total_kb * 1024)%float in
          let free_bytes := (free_kb * 1024)%float in
          let used_bytes := Py.max (total_bytes - free_bytes) 0 in
          Return {| total_bytes := Some total_bytes; used_bytes := Some used_bytes |}
      | _ => Return unavailable_memory
      end
  end.

(** The common opening of [_collect_disks], [_collect_processes] and
    [_collect_events]: run the script, and give up ([None], an empty result)
    on a failed command, an empty output, malformed JSON, or a document that
    is neither an object nor an array. *)
Definition rows_of (data : json) : option (list json) :=
  match data with
  | JObj _ => Some [data]
  | JArr items => Some items
  | _ => None
  end.

Definition query_rows (script : string) : res (option (list json)) :=
  match _run_powershell script with
  | Raise e => if caught_by [RuntimeError] e then Return None else Raise e
  | Return output =>
      if String.eqb output "" then Return None
      else match json_loads output with
           | Raise e => if caught_by [JSONDecodeError] e then Return None else Raise e
           | Return data => Return (rows_of data)
           end
  end.

Definition disks_script : string :=
  "Get-CimInstance Win32_LogicalDisk | " +:+
  "Where-Object {$_.DriveType -eq 3} | " +:+
  "Select-Object DeviceID,Size,FreeSpace | " +:+
  "ConvertTo-Json -Depth 3".

(** One turn of the loop of [_collect_disks]: [None] is [continue]. *)
Definition disk_row (disk : json) : res (option disk_usage) :=
  device ← get disk "DeviceID" JNull;
  total ← get disk "Size" JNull;
  free ← get disk "FreeSpace" JNull;
  if is_None device || is_None total || is_None free then Return None
  else
    try_except
      (let device_str := str device in
       total_f ← py_float total;
       free_f ← py_float free;
       Return (Some {| device := device_str;
                       disk_total_bytes := total_f;
                       free_bytes := free_f |}))
      [TypeError; ValueError] None.

Fixpoint disk_rows (rows : list json) (result : list disk_usage) : res (list disk_usage) :=
  match rows with
  | [] => Return result
  | disk :: rest =>
      r ← disk_row disk;
      disk_rows rest (match r with Some d => result ++ [d] | None => result end)
  end.

Definition _collect_disks : res (list disk_usage) :=
  rows ← query_rows disks_script;
  match rows with
  | None => Return []
  | Some rows => disk_rows rows []
  end.

Definition processes_script : string :=
  "Get-Process | " +:+
  "Select-Object Id,ProcessName,CPU,WorkingSet64 | " +:+
  "Sort-Object CPU -Descending | " +:+
  "Select-Object -First " +:+ Py.str_of_int (MAX_PROCESSES cfg) +:+ " | " +:+
  "ConvertTo-Json -Depth 3".

(** [os.cpu_count() or 1]. *)
Definition cpu_count : Z :=
  match os_cpu_count h with
  | None => 1
  | Some n => if n =? 0 then 1 else n
  end.

End Collector.

(** Lines 196-202 of [_collect_processes], the per-process delta: look up the
    previous cumulative CPU time of the pid, derive the utilisation when there
    is one and the interval is positive, then store the new reading. *)
Definition observe (pid_int : Z) (cpu_seconds interval_seconds : float) (cpu_count : Z)
    (previous : gmap Z float) : gmap Z float * res (option float) :=
  let previous_cpu := previous !! pid_int in
  let cpu_percent : res (option float) :=
    match previous_cpu with
    | Some previous_cpu =>
        if (0 <? interval_seconds)%float then
          let delta := Py.max (cpu_seconds - previous_cpu) 0 in
          rate ← Py.truediv delta interval_seconds;
          cores ← Py.float_of_int cpu_count;
          percent ← Py.truediv (rate * 100)%float cores;
          Return (Some percent)
        else Return None
    | None => Return None
    end in
  match cpu_percent with
  | Return cpu_percent => (<[pid_int := cpu_seconds]> previous, Return cpu_percent)
  | Raise e => (previous, Raise e)
  end.

Section Assembly.
Context `{PyLib} (h : host) (cfg : config).

(** One turn of the loop of [_collect_processes]: [None] is [continue].  The
    store into [_PREVIOUS_CPU_TIMES] stays when a later statement raises. *)
Definition process_row (process : json) (interval_seconds : float)
    (previous : gmap Z float) : gmap Z float * res (option process_sample) :=
  match
    (pid ← get process "Id" JNull;
     name ← get process "ProcessName" JNull;
     working_set ← get process "WorkingSet64" JNull;
     cpu_time ← get process "CPU" (JInt 0);
     Return (pid, name, working_set, cpu_time))
  with
  | Raise e => (previous, Raise e)
  | Return (pid, name, working_set, cpu_time) =>
      if is_None pid || is_None name then (previous, Return None)
      else
        match py_int pid with
        | Raise e =>
            if caught_by [TypeError; ValueError] e then (previous, Return None)
            else (previous, Raise e)
        | Return pid_int =>
            match try_except
                    (py_float (if truthy cpu_time then cpu_time else JFloat 0))
                    [TypeError; ValueError] 0%float
            with
            | Raise e => (previous, Raise e)
            | Return cpu_seconds =>
                match observe pid_int cpu_seconds interval_seconds (cpu_count h) previous with
                | (previous', Raise e) => (previous', Raise e)
                | (previous', Return cpu_percent) =>
                    match try_except
                            (if is_None working_set then Return None
                             else
                               ws ← py_float working_set;
                               mb ← Py.truediv ws 1048576;
                               Return (Some mb))
                            [TypeError; ValueError] None
                    with
                    | Raise e => (previous', Raise e)
                    | Return memory_mb =>
                        (previous',
                         Return (Some {| pid := pid_int;
                                         name := str name;
                                         cpu_percent := cpu_percent;
                                         memory_mb := memory_mb |}))
                    end
                end
            end
        end
  end.

Fixpoint process_rows (rows : list json) (interval_seconds : float)
    (previous : gmap Z float) (results : list process_sample)
    : gmap Z float * res (list process_sample) :=
  match rows with
  | [] => (previous, Return results)
  | process :: rest =>
      match process_row process interval_seconds previous with
      | (previous', Raise e) => (previous', Raise e)
      | (previous', Return r) =>
          process_rows rest interval_seconds previous'
            (match r with Some p => results ++ [p] | None => results end)
      end
  end.

Definition _collect_processes (interval_seconds : float) (previous : gmap Z float)
    : gmap Z float * res (list process_sample) :=
  match query_rows h (processes_script cfg) with
  | Raise e => (previous, Raise e)
  | Return None => (previous, Return [])
  | Return (Some rows) => process_rows rows interval_seconds previous []
  end.

Definition events_script : string :=
  "Get-WinEvent -LogName System -MaxEvents " +:+ Py.str_of_int (MAX_EVENTS cfg) +:+ " | " +:+
  "Select-Object TimeCreated,Id,LevelDisplayName,ProviderName,Message | " +:+
  "ConvertTo-Json -Depth 4".

Definition event_row (event : json) : res event_record :=
  time_created ← get event "TimeCreated" JNull;
  event_id ← get event "Id" JNull;
  level_name ← get event "LevelDisplayName" JNull;
  provider ← get event "ProviderName" JNull;
  text ← get event "Message" JNull;
  Return {| timestamp := time_created;
            id := if is_None event_id then None else Some (str event_id);
            level := level_name;
            source := provider;
            message := text |}.

Fixpoint event_rows (rows : list json) (result : list event_record) : res (list event_record) :=
  match rows with
  | [] => Return result
  | event :: rest => r ← event_row event; event_rows rest (result ++ [r])
  end.

Definition _collect_events : res (list event_record) :=
  rows ← query_rows h events_script;
  match rows with
  | None => Return []
  | Some rows => event_rows rows []
  end.

(** The interval handed to [_collect_processes]. *)
Definition snapshot_interval (now : float) (previous_collected_at : option float) : float :=
  match previous_collected_at with
  | Some previous => (now - previous)%float
  | None => POLL_INTERVAL cfg
  end.

(** [_collect_snapshot], with [now] the reading of [time.time()].  The
    assignment to [_PREVIOUS_COLLECTED_AT] precedes every collector. *)
Definition _collect_snapshot (now : float) (g : globals) : globals * res snapshot :=
  let interval := snapshot_interval now (_PREVIOUS_COLLECTED_AT g) in
  let stamped previous_cpu_times :=
    {| _PREVIOUS_CPU_TIMES := previous_cpu_times; _PREVIOUS_COLLECTED_AT := Some now |} in
  match
    (cpu_percent ← _collect_cpu_percent h;
     memory ← _collect_memory h;
     disks ← _collect_disks h;
     Return (cpu_percent, memory, disks))
  with
  | Raise e => (stamped (_PREVIOUS_CPU_TIMES g), Raise e)
  | Return (cpu_percent, memory, disks) =>
      match _collect_processes interval (_PREVIOUS_CPU_TIMES g) with
      | (previous', Raise e) => (stamped previous', Raise e)
      | (previous', Return processes) =>
          (stamped previous',
           events ← _collect_events;
           ip_address ← try_except (ip ← gethostbyname h (gethostname h); Return (Some ip))
                                   [OSError] None;
           Return {| agent_id := AGENT_ID cfg;
                     hostname := gethostname h;
                     ip := ip_address;
                     collected_at := strftime_utc now;
                     snapshot_metrics := {| metrics_cpu_percent := cpu_percent;
                                            memory := memory;
                                            disks := disks |};
                     processes := processes;
                     events := events |})
      end
  end.

(** The [urllib.request.Request] of [_post_snapshot], with the timeout that
    [urlopen] is called with. *)
Definition ingest_request (body : string) : request :=
  {| url := INGEST_URL cfg;
     data := body;
     headers := [("Content-Type", "application/json");
                 ("User-Agent", "windows-agent/1.0");
                 ("X-Ingest-Secret", INGEST_SECRET cfg)];
     method := "POST";
     timeout := 15 |}.

Definition _post_snapshot (payload : snapshot) : res unit :=
  body ← json_dumps payload;
  match urlopen h (ingest_request body) with
  | UrlopenRaises e => Raise e
  | Response status =>
      if 400 <=? status then
        raise RuntimeError ("Ingest failed with status " +:+ Py.str_of_int status)
      else Return tt
  end.

(** The readings of the clock during one turn of the loop of [main]. *)
Record cycle_clock := {
  started : float;            (* [time.time()] at the top of the loop *)
  now : float;                (* [time.time()] inside [_collect_snapshot] *)
  finished : float;           (* [time.time()] after the [try] statement *)
  local_time : string }.      (* [time.strftime('%Y-%m-%d %H:%M:%S')] *)

Inductive log_line :=
  | Stdout (text : string)
  | Stderr (text : string).

(** The [try] statement of [main]: collect, post, and print one line.  An
    exception that is not an [Exception] leaves the statement. *)
Definition collect_and_send (clock : cycle_clock) (g : globals) : globals * res log_line :=
  let '(g', collected) := _collect_snapshot (now clock) g in
  let attempt :=
    snapshot ← collected;
    _ ← _post_snapshot snapshot;
    Return (Stdout ("[" +:+ local_time clock +:+ "] Sent metrics for " +:+ agent_id snapshot)) in
  match attempt with
  | Return line => (g', Return line)
  | Raise exc =>
      if caught_by [Exception] exc then
        (g', Return (Stderr ("Error collecting or sending metrics: " +:+ exn_msg exc)))
      else (g', Raise exc)
  end.

(** [max(POLL_INTERVAL - elapsed, 5)]. *)
Definition sleep_time (clock : cycle_clock) : float :=
  let elapsed := (finished clock - started clock)%float in
  Py.max (POLL_INTERVAL cfg - elapsed) 5.

(** What a turn of the loop does that is seen from outside. *)
Inductive effect :=
  | Prints (line : log_line)
  | Sleeps (seconds : float).

(** [time.sleep(seconds)]: the argument is checked, then the host waits. *)
Definition time_sleep (seconds : float) : res unit :=
  _ ← Py.sleep_check seconds; sleep h seconds.

(** One turn of [while True:] in [main]: its effects in the order in which
    they happen, and how the turn is left.  [time.sleep] is called outside
    the [try] statement: what it raises leaves the loop.  [Sleeps] stands for
    a wait that has begun. *)
Definition main_cycle (clock : cycle_clock) (g : globals)
    : globals * (list effect * res unit) :=
  let '(g', logged) := collect_and_send clock g in
  match logged with
  | Raise exc => (g', ([], Raise exc))
  | Return line =>
      match Py.sleep_check (sleep_time clock) with
      | Raise exc => (g', ([Prints line], Raise exc))
      | Return _ => (g', ([Prints line; Sleeps (sleep_time clock)], sleep h (sleep_time clock)))
      end
  end.

End Assembly.

(** * Vocabulary of the statements *)

(** ** Classes of doubles, read off their specification *)

Definition sf_nonneg (s : spec_float) : bool :=
  match s with
  | S754_finite true _ _ | S754_infinity true => false
  | _ => true
  end.

Definition sf_positive (s : spec_float) : bool :=
  match s with
  | S754_finite false _ _ | S754_infinity false => true
  | _ => false
  end.

Definition sf_is_zero (s : spec_float) : bool :=
  match s with S754_zero _ => true | _ => false end.

Definition sf_is_nan (s : spec_float) : bool :=
  match s with S754_nan => true | _ => false end.

Definition sf_finite (s : spec_float) : bool :=
  match s with
  | S754_zero _ | S754_finite _ _ _ => true
  | _ => false
  end.

(** [math.isfinite]: neither NaN nor an infinity. *)
Definition isfinite (x : float) : bool := sf_finite (Prim2SF x).

(** ** Series of observations

    Each observation has its own pid, cumulative reading, interval and core
    count; a series runs against the table of previous readings. *)
Record observation := {
  obs_pid : Z;
  obs_cpu : float;
  obs_elapsed : float;
  obs_cores : Z }.

Definition observe_one (o : observation) (previous : gmap Z float)
    : gmap Z float * res (option float) :=
  observe (obs_pid o) (obs_cpu o) (obs_elapsed o) (obs_cores o) previous.

Fixpoint observe_all (calls : list observation) (previous : gmap Z float)
    : gmap Z float * list (res (option float)) :=
  match calls with
  | [] => (previous, [])
  | o :: rest =>
      let '(previous', r) := observe_one o previous in
      let '(final, rs) := observe_all rest previous' in
      (final, r :: rs)
  end.

(** No call in [earlier] is for [pid]. *)
Definition first_call_for (pid : Z) (earlier : list observation) : bool :=
  forallb (fun o => negb (obs_pid o =? pid)) earlier.

(** The reading of [pid] that the calls leave in the table. *)
Fixpoint latest (calls : list observation) (pid : Z) (stored : option float) : option float :=
  match calls with
  | [] => stored
  | o :: rest => latest rest pid (if obs_pid o =? pid then Some (obs_cpu o) else stored)
  end.

(** A core count that [os.cpu_count() or 1] can be: at least one, and held by
    a machine word. *)
Definition valid_cores (o : observation) : Prop := 1 <= obs_cores o < 2 ^ 63.

(** The reading and the interval of an observation are finite numbers. *)
Definition finite_readings (o : observation) : Prop :=
  isfinite (obs_cpu o) = true /\ isfinite (obs_elapsed o) = true.

(** ** Sources *)

(** A command that runs and exits with a non-zero status. *)
Definition exits_nonzero (h : host) (command : list string) : Prop :=
  exists rc out err, subprocess_run h command = Completed rc out err /\ rc <> 0.

(** The core count, when the host reports one, is a non-negative machine
    integer. *)
Definition valid_core_count (h : host) : Prop :=
  match os_cpu_count h with
  | Some n => 0 <= n < 2 ^ 63
  | None => True
  end.

(** ** Failed deliveries

    The ways [_post_snapshot] can fail, with the exception each one raises:
    the payload cannot be serialised, [urlopen] raises (network, timeout), or
    the endpoint answers with a status of 400 or more. *)
Inductive delivery_failure `{PyLib} (h : host) (cfg : config) (payload : snapshot)
    : exn -> Prop :=
  | serialization_failure (e : exn) :
      json_dumps payload = Raise e ->
      delivery_failure h cfg payload e
  | transport_failure (body : string) (e : exn) :
      json_dumps payload = Return body ->
      urlopen h (ingest_request cfg body) = UrlopenRaises e ->
      delivery_failure h cfg payload e
  | status_failure (body : string) (status : Z) :
      json_dumps payload = Return body ->
      urlopen h (ingest_request cfg body) = Response status ->
      400 <= status ->
      delivery_failure h cfg payload
        (mk_exn RuntimeError ("Ingest failed with status " +:+ Py.str_of_int status)).

(** * Example hosts *)

(** A stand-in for the interpreter's library, given by tables: [documents]
    lists what [json.loads] answers and [numbers] what [float(str)] answers
    (anything else is rejected).  [str] is given on strings, integers, null
    and booleans, [splitlines] cuts at line feeds, [strip] finds nothing to
    strip: the examples below use nothing else. *)
Fixpoint assoc {A : Type} (table : list (string * A)) (key : string) : option A :=
  match table with
  | [] => None
  | (k, v) :: rest => if String.eqb k key then Some v else assoc rest key
  end.

Fixpoint lines_lf (current text : string) : list string :=
  match text with
  | EmptyString => if String.eqb current "" then [] else [current]
  | String c rest =>
      if Ascii.eqb c (Ascii.ascii_of_nat 10) then current :: lines_lf "" rest
      else lines_lf (current +:+ String c "") rest
  end.

Definition table_lib (documents : list (string * json)) (numbers : list (string * float))
    : PyLib :=
  {| json_loads := fun text =>
       match assoc documents text with
       | Some document => Return document
       | None => raise JSONDecodeError "Expecting value"
       end;
     json_dumps := fun _ => Return "{}";
     float_of_str := assoc numbers;
     int_of_str := fun _ => None;
     str := fun v => match v with
                     | JStr s => s
                     | JInt n => Py.str_of_int n
                     | JBool true => "True"
                     | JBool false => "False"
                     | _ => "None"
                     end;
     splitlines := lines_lf "";
     strip := fun s => s;
     strftime_utc := fun _ => "2024-01-01T00:00:00Z" |}.

(** The defaults of the module constants, on a host named ["host-1"], and the
    same with at most two processes per snapshot. *)
Definition config_with (max_processes : Z) : config :=
  {| INGEST_URL := "http://localhost:3000/api/ingest";
     INGEST_SECRET := "dev-secret";
     AGENT_ID := "host-1";
     POLL_INTERVAL := 30;
     MAX_PROCESSES := max_processes;
     MAX_EVENTS := 20 |}.

Definition default_config : config := config_with 15.

Definition two_processes : config := config_with 2.

Definition host_running (run : list string -> run_outcome) (cores : option Z)
    (endpoint : urlopen_outcome) : host :=
  {| subprocess_run := run;
     gethostname := "host-1";
     gethostbyname := fun _ => Return "192.0.2.1";
     os_cpu_count := cores;
     urlopen := fun _ => endpoint;
     sleep := fun _ => Return tt |}.

(** Every command exits with status 1. *)
Definition all_commands_fail (command : list string) : run_outcome :=
  Completed 1 "" "not available".

(** [wmic] is not installed: starting it raises [FileNotFoundError]; the
    PowerShell queries exit with status 1. *)
Definition no_wmic (command : list string) : run_outcome :=
  match command with
  | "wmic" :: _ =>
      SpawnFails (mk_exn FileNotFoundError "[Errno 2] No such file or directory: 'wmic'")
  | _ => Completed 1 "" "not available"
  end.

(** [wmic] prints [text]; the PowerShell queries exit with status 1. *)
Definition wmic_prints (text : string) (command : list string) : run_outcome :=
  match command with
  | "wmic" :: _ => Completed 0 text ""
  | _ => Completed 1 "" "not available"
  end.

(** More free memory than the total. *)
Definition more_free_than_total : string :=
  "TotalVisibleMemorySize=100" +:+ String (Ascii.ascii_of_nat 10) "FreePhysicalMemory=200".

Definition number_table : list (string * float) :=
  [("nan", nan); ("1", 1%float); ("100", 100%float); ("200", 200%float)].

(** The snapshot of a host on which every source is unavailable. *)
Definition degraded_snapshot (stamp : string) : snapshot :=
  {| agent_id := "host-1";
     hostname := "host-1";
     ip := Some "192.0.2.1";
     collected_at := stamp;
     snapshot_metrics := {| metrics_cpu_percent := None;
                            memory := unavailable_memory;
                            disks := [] |};
     processes := [];
     events := [] |}.

(** One turn of the loop that takes 2 s, and one that takes 40 s. *)
Definition quick_cycle : cycle_clock :=
  {| started := 1000; now := 1000.5; finished := 1002; local_time := "2024-01-01 00:00:00" |}.

Definition slow_cycle : cycle_clock :=
  {| started := 1000; now := 1000.5; finished := 1040; local_time := "2024-01-01 00:00:00" |}.

(** Two observations of pid 1 on one core: 10 s apart, and with no time
    elapsed. *)
Definition calls_10s_apart : list observation :=
  [ {| obs_pid := 1; obs_cpu := 10; obs_elapsed := 10; obs_cores := 1 |};
    {| obs_pid := 1; obs_cpu := 15; obs_elapsed := 10; obs_cores := 1 |} ].

Definition calls_no_time_elapsed : list observation :=
  [ {| obs_pid := 1; obs_cpu := 10; obs_elapsed := 10; obs_cores := 1 |};
    {| obs_pid := 1; obs_cpu := 15; obs_elapsed := 0; obs_cores := 1 |} ].

(** Rows of a process listing with the four properties the query selects,
    and the document that lists them: one object for a single row, an array
    for more, and no output at all for none. *)
Record ps_process := {
  Id : Z;
  ProcessName : string;
  CPU : option float;
  WorkingSet64 : Z }.

Definition ps_row_json (p : ps_process) : json :=
  JObj [("Id", JInt (Id p));
        ("ProcessName", JStr (ProcessName p));
        ("CPU", match CPU p with Some x => JFloat x | None => JNull end);
        ("WorkingSet64", JInt (WorkingSet64 p))].

Definition listing (rows : list ps_process) : option json :=
  match rows with
  | [] => None
  | [p] => Some (ps_row_json p)
  | _ => Some (JArr (map ps_row_json rows))
  end.

(** A host whose PowerShell answers the process query with the rows
    [printed], in that order, by a text that the library reads back as their
    document. *)
Definition process_rows_text : string := "<process rows>".

Definition prints_processes (cfg : config) (printed : list ps_process)
    (command : list string) : run_outcome :=
  if decide (command = ["powershell"; "-NoProfile"; "-Command"; processes_script cfg])
  then Completed 0 (match listing printed with
                    | Some _ => process_rows_text
                    | None => ""
                    end) ""
  else Completed 1 "" "not available".

Definition reads_processes (printed : list ps_process) : PyLib :=
  table_lib (match listing printed with
             | Some document => [(process_rows_text, document)]
             | None => []
             end) [].

(** Pids 1, 2, 3 with 5, 9 and 1 CPU-seconds, and the two with the most. *)
Definition process_1 : ps_process :=
  {| Id := 1; ProcessName := "a"; CPU := Some 5%float; WorkingSet64 := 1048576 |}.
Definition process_2 : ps_process :=
  {| Id := 2; ProcessName := "b"; CPU := Some 9%float; WorkingSet64 := 1048576 |}.


Definition sample_ranked : list ps_process := [process_2; process_1].


(** * Vocabulary of the collectors and the loop *)

(** ** Lines of [wmic ... /value] output *)

(** The text of a line after its first [n] characters. *)
Fixpoint string_drop (n : nat) (s : string) : string :=
  match n, s with
  | O, _ => s
  | S n', String _ rest => string_drop n' rest
  | S _, EmptyString => ""
  end.

Fixpoint contains_eq (s : string) : bool :=
  match s with
  | EmptyString => false
  | String c rest => Ascii.eqb c (Ascii.ascii_of_nat 61) || contains_eq rest
  end.

(** The first and the last line of the form [key=...]. *)
Definition first_line (key : string) (lines : list string) : option string :=
  find (fun line => Py.startswith line (key +:+ "=")) lines.

Definition last_line (key : string) (lines : list string) : option string :=
  first_line key (rev lines).

(** The number such a line carries: what follows [key=], stripped and read
    by [float]; [None] when it does not read as a number. *)
Definition line_value `{PyLib} (key : string) (line : option string) : option float :=
  match line with
  | Some line => float_of_str (strip (string_drop (String.length key + 1) line))
  | None => None
  end.

(** The reading [_collect_memory] builds from the two numbers. *)
Definition memory_of (total_kb free_kb : option float) : memory_reading :=
  match total_kb, free_kb with
  | Some total_kb, Some free_kb =>
      {| total_bytes := Some (total_kb * 1024)%float;
         used_bytes := Some (Py.max (total_kb * 1024 - free_kb * 1024) 0) |}
  | _, _ => unavailable_memory
  end.

Definition cpu_command : list string := ["wmic"; "cpu"; "get"; "LoadPercentage"; "/value"].

Definition memory_command : list string :=
  ["wmic"; "OS"; "get"; "FreePhysicalMemory,TotalVisibleMemorySize"; "/value"].

(** [wmic] output with two load lines, and with a total that is given twice. *)
Definition two_loads : string :=
  "LoadPercentage=100" +:+ String (Ascii.ascii_of_nat 10) "LoadPercentage=1".

Definition total_twice : string :=
  "TotalVisibleMemorySize=1" +:+ String (Ascii.ascii_of_nat 10)
  ("FreePhysicalMemory=100" +:+ String (Ascii.ascii_of_nat 10) "TotalVisibleMemorySize=200").

(** ** Documents *)



Definition is_object (row : json) : bool :=
  match row with JObj _ => true | _ => false end.



(** The rows that the loop of a collector runs over: those of the document
    its query printed, none when the query gave nothing to read. *)
Definition rows_read `{PyLib} (h : host) (script : string) : list json :=
  match query_rows h script with
  | Return (Some rows) => rows
  | _ => []
  end.

(** ** What a cycle runs *)











(** ** Samples and rows *)

(** A utilisation, when there is one, is not negative. *)
Definition not_negative_percent (s : process_sample) : Prop :=
  match cpu_percent s with
  | Some v => (v <? 0)%float = false
  | None => True
  end.

(** The sample was made from the row: an object whose [Id] converts to the
    pid and whose [ProcessName] is there. *)
Definition sample_of_row `{PyLib} (row : json) (s : process_sample) : Prop :=
  exists fields,
    row = JObj fields
    /\ py_int (dict_get fields "Id" JNull) = Return (pid s)
    /\ is_None (dict_get fields "ProcessName" JNull) = false
    /\ name s = str (dict_get fields "ProcessName" JNull).

(** The disk entry was made from the row: an object with the three fields,
    whose [DeviceID] prints as the device and whose sizes convert. *)
Definition disk_of_row `{PyLib} (row : json) (d : disk_usage) : Prop :=
  exists fields,
    row = JObj fields
    /\ is_None (dict_get fields "DeviceID" JNull) = false
    /\ device d = str (dict_get fields "DeviceID" JNull)
    /\ py_float (dict_get fields "Size" JNull) = Return (disk_total_bytes d)
    /\ py_float (dict_get fields "FreeSpace" JNull) = Return (free_bytes d).

(** The event record of an object row: its five fields, passed through. *)
Definition event_of_fields `{PyLib} (fields : list (string * json)) : event_record :=
  {| timestamp := dict_get fields "TimeCreated" JNull;
     id := if is_None (dict_get fields "Id" JNull) then None
           else Some (str (dict_get fields "Id" JNull));
     level := dict_get fields "LevelDisplayName" JNull;
     source := dict_get fields "ProviderName" JNull;
     message := dict_get fields "Message" JNull |}.

Definition object_fields (row : json) : list (string * json) :=
  match row with JObj fields => fields | _ => [] end.

(** A pid absent from the table and from the samples before it. *)
Definition first_sight (previous : gmap Z float) (before : list process_sample)
    (s : process_sample) : Prop :=
  previous !! pid s = None /\ ~ In (pid s) (map pid before).

(** The rows of the process query that get a sample: [Id] and [ProcessName]
    are there and [Id] converts to an integer. *)
Definition sampled `{PyLib} (row : json) : bool :=
  match row with
  | JObj fields =>
      negb (is_None (dict_get fields "Id" JNull))
      && negb (is_None (dict_get fields "ProcessName" JNull))
      && match py_int (dict_get fields "Id" JNull) with
         | Return _ => true
         | Raise _ => false
         end
  | _ => false
  end.


(** The rows of the disk query that get an entry: the three fields are there
    and both sizes convert to a number. *)
Definition reported `{PyLib} (row : json) : bool :=
  match row with
  | JObj fields =>
      negb (is_None (dict_get fields "DeviceID" JNull))
      && negb (is_None (dict_get fields "Size" JNull))
      && negb (is_None (dict_get fields "FreeSpace" JNull))
      && match py_float (dict_get fields "Size" JNull),
               py_float (dict_get fields "FreeSpace" JNull) with
         | Return _, Return _ => true
         | _, _ => false
         end
  | _ => false
  end.

(** A host that answers the process query with [sample_ranked], and a table
    that knows pids 1 and 9. *)
Definition ranking_host : host :=
  host_running (prints_processes two_processes sample_ranked) (Some 4) (Response 200).

Definition known_pids : gmap Z float := <[1 := 2%float]> (<[9 := 2%float]> ∅).

(** ** Example documents *)

(** A host whose PowerShell answers [script] with [text], and a library that
    reads [text] back as [document]. *)
Definition prints_text (script text : string) (command : list string) : run_outcome :=
  if decide (command = ["powershell"; "-NoProfile"; "-Command"; script])
  then Completed 0 text ""
  else Completed 1 "" "not available".

Definition reads (text : string) (document : json) : PyLib :=
  table_lib [(text, document)] [].

(** Two drives, the second one without a medium. *)
Definition disk_document : json :=
  JArr [ JObj [("DeviceID", JStr "C:"); ("Size", JInt 1000); ("FreeSpace", JInt 400)];
         JObj [("DeviceID", JStr "D:"); ("Size", JNull); ("FreeSpace", JNull)] ].

(** One event, without a message. *)
Definition event_document : json :=
  JObj [("TimeCreated", JStr "2024-01-01T00:00:00");
        ("Id", JInt 7036);
        ("LevelDisplayName", JStr "Information");
        ("ProviderName", JStr "Service Control Manager");
        ("Message", JNull)].

(** ** Queries that give nothing to read *)

(** The command runs and leaves the collector without rows: it exits with a
    status that is not 0, prints nothing, prints what [json.loads] rejects,
    or prints a document that is neither an object nor an array. *)
Definition gives_nothing_to_read `{PyLib} (h : host) (script : string) : Prop :=
  exists rc out err,
    subprocess_run h ["powershell"; "-NoProfile"; "-Command"; script] = Completed rc out err
    /\ (rc <> 0
        \/ strip out = ""
        \/ (exists e, json_loads (strip out) = Raise e
                      /\ caught_by [JSONDecodeError] e = true)
        \/ exists document, json_loads (strip out) = Return document
                            /\ rows_of document = None).

(** A process table read 30 s before the cycle at 1030 s. *)
Definition read_at_1000 : globals :=
  {| _PREVIOUS_CPU_TIMES := known_pids; _PREVIOUS_COLLECTED_AT := Some 1000%float |}.

Definition failing_host : host := host_running all_commands_fail (Some 4) (Response 200).

Definition sample_a (rate : float) : process_sample :=
  {| pid := 1; name := "a"; cpu_percent := Some rate; memory_mb := Some 1%float |}.

Definition sample_b : process_sample :=
  {| pid := 2; name := "b"; cpu_percent := None; memory_mb := Some 1%float |}.

(** ** The loop of [main] *)

(** The first turns of [while True:], each with the host as it is during the
    turn and the readings of its clock: the effects of the turns in order,
    until one of them lets an exception through. *)
Fixpoint main_turns `{PyLib} (cfg : config) (turns : list (host * cycle_clock)) (g : globals)
    : globals * (list effect * res unit) :=
  match turns with
  | [] => (g, ([], Return tt))
  | (h, clock) :: rest =>
      match main_cycle h cfg clock g with
      | (g', (done, Raise e)) => (g', (done, Raise e))
      | (g', (done, Return _)) =>
          let '(g'', (later, r)) := main_turns cfg rest g' in
          (g'', ((done ++ later)%list, r))
      end
  end.




(** A cycle 10 s after the reading at 1000 s. *)
Definition cycle_at_1010 : cycle_clock :=
  {| started := 1009.5; now := 1010; finished := 1011; local_time := "2024-01-01 00:00:10" |}.

(** * Properties *)

(** ** Doubles compared with zero *)

Lemma Prim2SF_zero : Prim2SF 0 = S754_zero false.
Proof. reflexivity. Qed.

Lemma ltb_zero_r (x : float) : (x <? 0)%float = negb (sf_nonneg (Prim2SF x)).
Proof. rewrite FloatAxioms.ltb_spec, Prim2SF_zero. now destruct (Prim2SF x) as [[]|[]| |[] ? ?]. Qed.

Lemma ltb_zero_l (x : float) : (0 <? x)%float = sf_positive (Prim2SF x).
Proof. rewrite FloatAxioms.ltb_spec, Prim2SF_zero. now destruct (Prim2SF x) as [[]|[]| |[] ? ?]. Qed.

Lemma eqb_zero_r (x : float) : (x =? 0)%float = sf_is_zero (Prim2SF x).
Proof. rewrite FloatAxioms.eqb_spec, Prim2SF_zero. now destruct (Prim2SF x) as [[]|[]| |[] ? ?]. Qed.

Lemma leb_zero_l (x : float) :
  (0 <=? x)%float = sf_nonneg (Prim2SF x) && negb (sf_is_nan (Prim2SF x)).
Proof. rewrite FloatAxioms.leb_spec, Prim2SF_zero. now destruct (Prim2SF x) as [[]|[]| |[] ? ?]. Qed.

Lemma leb_zero_r (x : float) :
  (x <=? 0)%float = negb (sf_positive (Prim2SF x)) && negb (sf_is_nan (Prim2SF x)).
Proof. rewrite FloatAxioms.leb_spec, Prim2SF_zero. now destruct (Prim2SF x) as [[]|[]| |[] ? ?]. Qed.

Lemma isnan_spec (x : float) : Py.isnan x = sf_is_nan (Prim2SF x).
Proof.
  unfold Py.isnan. rewrite FloatAxioms.eqb_spec. unfold SFeqb, SFcompare.
  destruct (Prim2SF x) as [[]|[]| |[] m e]; try reflexivity.
  all: rewrite Z.compare_refl, Pos.compare_cont_refl; reflexivity.
Qed.

(** ** Rounding keeps a positive integer positive *)

Lemma shr_1_div2 (r : shr_record) : 0 <= shr_m r -> shr_m (shr_1 r) = shr_m r / 2.
Proof.
  rewrite <- Z.div2_div. destruct r as [m b s]; simpl.
  destruct m as [|p|p]; [reflexivity| |lia]. now destruct p.
Qed.

Lemma pow2_xI (n : positive) : 2 ^ Zpos n~1 = 2 * (2 ^ Zpos n * 2 ^ Zpos n).
Proof.
  replace (Zpos n~1) with (1 + Zpos n + Zpos n) by lia.
  rewrite !Z.pow_add_r by lia. lia.
Qed.

Lemma pow2_xO (n : positive) : 2 ^ Zpos n~0 = 2 ^ Zpos n * 2 ^ Zpos n.
Proof.
  replace (Zpos n~0) with (Zpos n + Zpos n) by lia.
  rewrite !Z.pow_add_r by lia. lia.
Qed.

Lemma iter_shr_1 (n : positive) : forall r : shr_record,
  0 <= shr_m r -> shr_m (SpecFloat.iter_pos shr_1 n r) = shr_m r / 2 ^ Zpos n.
Proof.
  induction n as [n IH|n IH|]; intros r Hr; simpl SpecFloat.iter_pos.
  - assert (H1 : 0 <= shr_m (shr_1 r)) by (rewrite shr_1_div2 by lia; apply Z.div_pos; lia).
    assert (H2 : 0 <= shr_m (SpecFloat.iter_pos shr_1 n (shr_1 r)))
      by (rewrite IH by lia; apply Z.div_pos; lia).
    rewrite IH, IH, shr_1_div2 by lia.
    rewrite !Z.div_div by lia. now rewrite pow2_xI.
  - assert (H2 : 0 <= shr_m (SpecFloat.iter_pos shr_1 n r))
      by (rewrite IH by lia; apply Z.div_pos; lia).
    rewrite IH, IH by lia. rewrite !Z.div_div by lia. now rewrite pow2_xO.
  - now rewrite shr_1_div2.
Qed.

Lemma digits2_pos_bounds (p : positive) :
  2 ^ (Zpos (digits2_pos p) - 1) <= Zpos p < 2 ^ Zpos (digits2_pos p).
Proof.
  induction p as [p IH|p IH|]; simpl digits2_pos; [| |simpl; lia];
    rewrite Pos2Z.inj_succ;
    replace (Z.succ (Zpos (digits2_pos p)) - 1) with (Z.succ (Zpos (digits2_pos p) - 1)) by lia;
    rewrite !Z.pow_succ_r by lia; lia.
Qed.

Lemma digits2_pos_lower (p : positive) (k : Z) :
  0 <= k -> 2 ^ k <= Zpos p -> k < Zpos (digits2_pos p).
Proof.
  intros Hk Hp. destruct (digits2_pos_bounds p) as [_ Hu].
  apply (Z.pow_lt_mono_r_iff 2); lia.
Qed.

Lemma digits2_pos_upper (p : positive) (k : Z) :
  0 <= k -> Zpos p < 2 ^ k -> Zpos (digits2_pos p) <= k.
Proof.
  intros Hk Hp. destruct (digits2_pos_bounds p) as [Hl _].
  assert (Zpos (digits2_pos p) - 1 < k); [|lia].
  apply (Z.pow_lt_mono_r_iff 2); lia.
Qed.

Lemma digits2_pos_iter_xO (p k : positive) :
  Zpos (digits2_pos (PosDef.Pos.iter xO p k)) = Zpos (digits2_pos p) + Zpos k.
Proof.
  change (PosDef.Pos.iter xO p k) with (Pos.iter xO p k).
  induction k as [|k IH] using Pos.peano_ind.
  - simpl. lia.
  - rewrite Pos.iter_succ. simpl digits2_pos. lia.
Qed.

(** Shifting a positive mantissa to its format exponent keeps it positive as
    long as the number is above the subnormal range; the position of the
    leading bit and the exponent are as expected. *)
Lemma shr_fexp_pos (q : positive) (e : Z) (l : location) :
  emin < Zpos (digits2_pos q) + e ->
  exists (m' : positive) (e' : Z) (b s : bool),
    shr_fexp prec emax (Zpos q) e l = ({| shr_m := Zpos m'; shr_r := b; shr_s := s |}, e')
    /\ Zpos (digits2_pos m') + e' = Zpos (digits2_pos q) + e
    /\ e' = Z.max e (fexp prec emax (Zpos (digits2_pos q) + e)).
Proof.
  intros He. unfold shr_fexp, shr. simpl Zdigits2.
  set (d := Zpos (digits2_pos q)) in *.
  destruct (fexp prec emax (d + e) - e) as [|n|n] eqn:En.
  - destruct l as [|[]]; cbn [shr_record_of_loc]; exists q, e; do 2 eexists;
      (split; [reflexivity|subst d; unfold fexp, SpecFloat.emin, prec, emax in *; lia]).
  - set (r0 := shr_record_of_loc (Zpos q) l).
    assert (Hr0 : shr_m r0 = Zpos q) by (unfold r0; destruct l as [|[]]; reflexivity).
    pose proof (iter_shr_1 n r0 ltac:(lia)) as Hit. rewrite Hr0 in Hit.
    assert (Hn : Zpos n <= d - 1).
    { unfold fexp, SpecFloat.emin, prec, emax in *. lia. }
    destruct (digits2_pos_bounds q) as [Hlo Hhi]. fold d in Hlo, Hhi.
    assert (Hq : 2 ^ (d - 1 - Zpos n) <= Zpos q / 2 ^ Zpos n).
    { apply Z.div_le_lower_bound; [lia|]. rewrite <- Z.pow_add_r by lia.
      replace (Zpos n + (d - 1 - Zpos n)) with (d - 1) by lia. exact Hlo. }
    assert (Hq' : Zpos q / 2 ^ Zpos n < 2 ^ (d - Zpos n)).
    { apply Z.div_lt_upper_bound; [lia|]. rewrite <- Z.pow_add_r by lia.
      replace (Zpos n + (d - Zpos n)) with d by lia. exact Hhi. }
    assert (Hpos : 0 < Zpos q / 2 ^ Zpos n).
    { eapply Z.lt_le_trans; [|exact Hq]. apply Z.pow_pos_nonneg; lia. }
    destruct (SpecFloat.iter_pos shr_1 n r0) as [m1 b1 s1]. simpl in Hit. subst m1.
    destruct (Zpos q / 2 ^ Zpos n) as [|m'|m'] eqn:Em; try lia.
    exists m', (e + Zpos n), b1, s1. split; [reflexivity|].
    pose proof (digits2_pos_lower m' (d - 1 - Zpos n) ltac:(lia) Hq).
    pose proof (digits2_pos_upper m' (d - Zpos n) ltac:(lia) Hq').
    subst d. unfold fexp, SpecFloat.emin, prec, emax in *. lia.
  - destruct l as [|[]]; cbn [shr_record_of_loc]; exists q, e; do 2 eexists;
      (split; [reflexivity|subst d; unfold fexp, SpecFloat.emin, prec, emax in *; lia]).
Qed.

Lemma round_nearest_even_pos (m : positive) (l : location) :
  exists m' : positive,
    round_nearest_even (Zpos m) l = Zpos m' /\ Zpos m <= Zpos m' <= Zpos m + 1.
Proof.
  destruct l as [|[]]; cbn [round_nearest_even].
  - exists m; lia.
  - destruct (Z.even (Zpos m)); [exists m; lia|exists (m + 1)%positive; lia].
  - exists m; lia.
  - exists (m + 1)%positive; lia.
Qed.

Lemma binary_round_aux_finite (sx : bool) (q : positive) (e : Z) (l : location) :
  emin < Zpos (digits2_pos q) + e ->
  Zpos (digits2_pos q) + e < emax ->
  e <= emax - prec ->
  exists (m : positive) (e' : Z),
    binary_round_aux prec emax sx (Zpos q) e l = S754_finite sx m e'.
Proof.
  intros Hlo Hhi He. unfold binary_round_aux.
  destruct (shr_fexp_pos q e l Hlo) as (m1 & e1 & b1 & s1 & -> & Hd1 & He1).
  cbn [shr_m].
  destruct (round_nearest_even_pos m1 (loc_of_shr_record {| shr_m := Zpos m1; shr_r := b1; shr_s := s1 |}))
    as (m2 & -> & Hm2).
  destruct (digits2_pos_bounds m1) as [Hl1 Hu1].
  assert (Hd2l : Zpos (digits2_pos m1) - 1 < Zpos (digits2_pos m2)).
  { apply digits2_pos_lower; lia. }
  assert (Hd2u : Zpos (digits2_pos m2) <= Zpos (digits2_pos m1) + 1).
  { apply digits2_pos_upper; [lia|]. rewrite Z.pow_add_r, Z.pow_1_r by lia. lia. }
  destruct (shr_fexp_pos m2 e1 loc_Exact ltac:(lia)) as (m3 & e3 & b3 & s3 & -> & Hd3 & He3).
  cbn [shr_m].
  assert (Hle : (e3 <=? emax - prec) = true).
  { apply Z.leb_le. unfold fexp, SpecFloat.emin, prec, emax in *. lia. }
  rewrite Hle. eauto.
Qed.

Lemma binary_round_finite (sx : bool) (p : positive) (e : Z) :
  emin < Zpos (digits2_pos p) + e ->
  Zpos (digits2_pos p) + e < emax ->
  e <= emax - prec ->
  exists (m : positive) (e' : Z), binary_round prec emax sx p e = S754_finite sx m e'.
Proof.
  intros Hlo Hhi He. unfold binary_round, shl_align.
  destruct (fexp prec emax (Zpos (digits2_pos p) + e) - e) as [|k|k] eqn:Ek;
    try (apply binary_round_aux_finite; assumption).
  apply binary_round_aux_finite; rewrite ?digits2_pos_iter_xO;
    unfold fexp, SpecFloat.emin, prec, emax in *; lia.
Qed.

(** The integers a 63-bit machine word holds convert to a positive, finite
    double. *)
Lemma binary_normalize_small (n : Z) :
  1 <= n < 2 ^ 63 ->
  exists (m : positive) (e : Z),
    binary_normalize prec emax n 0 false = S754_finite false m e.
Proof.
  intros [Hn Hn']. destruct n as [|p|p]; try lia. simpl binary_normalize.
  pose proof (digits2_pos_upper p 63 ltac:(lia) Hn').
  apply binary_round_finite; unfold SpecFloat.emin, prec, emax; lia.
Qed.

Lemma binary_normalize_valid (n : Z) :
  0 <= n < 2 ^ 63 -> valid_binary (binary_normalize prec emax n 0 false) = true.
Proof.
  intros Hn. pose proof (Prim2SF_valid (of_uint63 (Uint63.of_Z n))) as Hv.
  rewrite of_uint63_spec, Uint63.of_Z_spec, Z.mod_small in Hv; [exact Hv|].
  change wB with (2 ^ 63). lia.
Qed.

Lemma float_of_int_small (n : Z) :
  1 <= n < 2 ^ 63 ->
  exists x : float, Py.float_of_int n = Return x /\ sf_positive (Prim2SF x) = true.
Proof.
  intros Hn. destruct (binary_normalize_small n Hn) as (m & e & Hbn).
  pose proof (binary_normalize_valid n ltac:(lia)) as Hv.
  unfold Py.float_of_int. rewrite Hbn in *.
  eexists; split; [reflexivity|]. now rewrite Prim2SF_SF2Prim.
Qed.

(** ** Signs through division and multiplication *)

Lemma binary_round_aux_nonneg (mx ex : Z) (lx : location) :
  sf_nonneg (binary_round_aux prec emax false mx ex lx) = true.
Proof.
  unfold binary_round_aux.
  destruct (shr_fexp prec emax mx ex lx) as [r1 e1].
  destruct (shr_fexp prec emax _ e1 loc_Exact) as [r2 e2].
  destruct (shr_m r2); [reflexivity| |reflexivity].
  now destruct (e2 <=? emax - prec).
Qed.

Lemma SFdiv_nonneg (a b : spec_float) :
  sf_nonneg a = true -> sf_positive b = true -> sf_nonneg (SF64div a b) = true.
Proof.
  destruct a as [[]|[]| |[] ma ea], b as [[]|[]| |[] mb eb]; try discriminate; try reflexivity;
    intros _ _.
  unfold SF64div, SFdiv.
  destruct (SFdiv_core_binary prec emax (Zpos ma) ea (Zpos mb) eb) as [[mz ez] lz].
  apply binary_round_aux_nonneg.
Qed.

Lemma SFmul_nonneg (a b : spec_float) :
  sf_nonneg a = true -> sf_positive b = true -> sf_nonneg (SF64mul a b) = true.
Proof.
  destruct a as [[]|[]| |[] ma ea], b as [[]|[]| |[] mb eb]; try discriminate; try reflexivity;
    intros _ _.
  apply binary_round_aux_nonneg.
Qed.

Lemma sf_positive_not_zero (s : spec_float) : sf_positive s = true -> sf_is_zero s = false.
Proof. now destruct s as [?|?| |[] ? ?]. Qed.

Lemma positive_not_zero (x : float) : (0 <? x)%float = true -> (x =? 0)%float = false.
Proof. rewrite ltb_zero_l, eqb_zero_r. apply sf_positive_not_zero. Qed.

Lemma nonpositive_not_positive (x : float) : (x <=? 0)%float = true -> (0 <? x)%float = false.
Proof.
  rewrite leb_zero_r, ltb_zero_l. now destruct (sf_positive (Prim2SF x)).
Qed.

Lemma max_zero_nonneg (x : float) : (Py.max x 0 <? 0)%float = false.
Proof.
  unfold Py.max. destruct (x <? 0)%float eqn:Hx; [reflexivity|exact Hx].
Qed.

Lemma not_negative_ge (x : float) :
  (x <? 0)%float = false -> Py.isnan x = false -> (0 <=? x)%float = true.
Proof.
  rewrite ltb_zero_r, isnan_spec, leb_zero_l. intros H1 H2.
  destruct (sf_nonneg (Prim2SF x)); [|discriminate]. now rewrite H2.
Qed.

(** The utilisation formula never yields a negative number. *)
Lemma utilization_nonneg (delta interval cores : float) :
  (delta <? 0)%float = false ->
  (0 <? interval)%float = true ->
  (0 <? cores)%float = true ->
  (delta / interval * 100 / cores <? 0)%float = false.
Proof.
  rewrite !ltb_zero_r, !ltb_zero_l. intros Hd Hi Hc.
  apply negb_false_iff. apply negb_false_iff in Hd.
  rewrite FloatAxioms.div_spec. apply SFdiv_nonneg; [|exact Hc].
  rewrite FloatAxioms.mul_spec. apply SFmul_nonneg; [|reflexivity].
  rewrite FloatAxioms.div_spec. now apply SFdiv_nonneg.
Qed.

(** A reading below the stored one gives exactly zero. *)
Lemma utilization_zero (interval cores : float) :
  (0 <? interval)%float = true ->
  (0 <? cores)%float = true ->
  (0 / interval * 100 / cores)%float = 0%float.
Proof.
  rewrite !ltb_zero_l. intros Hi Hc. apply Prim2SF_inj.
  rewrite FloatAxioms.div_spec, FloatAxioms.mul_spec, FloatAxioms.div_spec, Prim2SF_zero.
  assert (H1 : SF64div (S754_zero false) (Prim2SF interval) = S754_zero false)
    by (now destruct (Prim2SF interval) as [?|[]| |[] ? ?]).
  rewrite H1.
  assert (H2 : SF64mul (S754_zero false) (Prim2SF 100) = S754_zero false) by reflexivity.
  rewrite H2. now destruct (Prim2SF cores) as [?|[]| |[] ? ?].
Qed.

(** ** Finite operands give a number *)

Lemma shr_nonneg (r : shr_record) (e n : Z) : 0 <= shr_m r -> 0 <= shr_m (shr r e n).1.
Proof.
  intros Hr. unfold shr. destruct n as [|p|p]; try exact Hr.
  cbn [fst]. rewrite iter_shr_1 by exact Hr. apply Z.div_pos; lia.
Qed.

Lemma shr_fexp_nonneg (m e : Z) (l : location) :
  0 <= m -> 0 <= shr_m (shr_fexp prec emax m e l).1.
Proof.
  intros Hm. unfold shr_fexp. apply shr_nonneg. now destruct l as [|[]].
Qed.

Lemma round_nearest_even_nonneg (m : Z) (l : location) :
  0 <= m -> 0 <= round_nearest_even m l.
Proof.
  intros Hm. destruct l as [|[]]; cbn [round_nearest_even]; try lia.
  destruct (Z.even m); lia.
Qed.

Lemma binary_round_aux_not_nan (sx : bool) (mx ex : Z) (lx : location) :
  0 <= mx -> sf_is_nan (binary_round_aux prec emax sx mx ex lx) = false.
Proof.
  intros Hm. unfold binary_round_aux.
  pose proof (shr_fexp_nonneg mx ex lx Hm) as H1.
  destruct (shr_fexp prec emax mx ex lx) as [r1 e1]. cbn [fst] in H1.
  pose proof (shr_fexp_nonneg _ e1 loc_Exact
                (round_nearest_even_nonneg (shr_m r1) (loc_of_shr_record r1) H1)) as H2.
  destruct (shr_fexp prec emax _ e1 loc_Exact) as [r2 e2]. cbn [fst] in H2.
  destruct (shr_m r2) as [|p|p]; [reflexivity| |lia].
  now destruct (e2 <=? emax - prec).
Qed.

Lemma binary_normalize_not_nan (m e : Z) (szero : bool) :
  sf_is_nan (binary_normalize prec emax m e szero) = false.
Proof.
  destruct m as [|p|p]; [reflexivity| |]; cbn [binary_normalize]; unfold binary_round;
    destruct (shl_align _ _ _) as [mz ez]; now apply binary_round_aux_not_nan.
Qed.

Lemma SFsub_not_nan (a b : spec_float) :
  sf_finite a = true -> sf_finite b = true -> sf_is_nan (SF64sub a b) = false.
Proof.
  destruct a as [[]|?| |sa ma ea], b as [[]|?| |sb mb eb]; try discriminate; try reflexivity;
    intros _ _; apply binary_normalize_not_nan.
Qed.

Lemma SFdiv_core_nonneg (m1 : positive) (e1 : Z) (m2 : positive) (e2 : Z) :
  0 <= (SFdiv_core_binary prec emax (Zpos m1) e1 (Zpos m2) e2).1.1.
Proof.
  unfold SFdiv_core_binary.
  set (s := _ - _ - _).
  set (m' := match s with Z0 => Zpos m1 | Zpos _ => Z.shiftl (Zpos m1) s | Zneg _ => 0 end).
  assert (Hm' : 0 <= m').
  { unfold m'. destruct s; try lia. apply Z.shiftl_nonneg. lia. }
  pose proof (Z.div_pos m' (Zpos m2) Hm' ltac:(lia)) as Hq.
  unfold Z.div in Hq. destruct (Z.div_eucl m' (Zpos m2)) as [q r]. exact Hq.
Qed.

Lemma SFdiv_not_nan (a b : spec_float) :
  sf_is_nan a = false -> sf_positive b = true -> sf_finite b = true ->
  sf_is_nan (SF64div a b) = false.
Proof.
  destruct a as [?|?| |sa ma ea], b as [?|?| |[] mb eb]; try discriminate; try reflexivity;
    intros _ _ _.
  unfold SF64div, SFdiv. pose proof (SFdiv_core_nonneg ma ea mb eb) as Hq.
  destruct (SFdiv_core_binary prec emax (Zpos ma) ea (Zpos mb) eb) as [[mz ez] lz].
  now apply binary_round_aux_not_nan.
Qed.

Lemma SFmul_not_nan (a b : spec_float) :
  sf_is_nan a = false -> sf_positive b = true -> sf_finite b = true ->
  sf_is_nan (SF64mul a b) = false.
Proof.
  destruct a as [?|?| |sa ma ea], b as [?|?| |[] mb eb]; try discriminate; try reflexivity;
    intros _ _ _.
  unfold SF64mul, SFmul. now apply binary_round_aux_not_nan.
Qed.

(** The utilisation of finite readings over a positive, finite interval is a
    number. *)
Lemma utilization_not_nan (c p interval cores : float) :
  isfinite c = true -> isfinite p = true ->
  isfinite interval = true -> (0 <? interval)%float = true ->
  isfinite cores = true -> (0 <? cores)%float = true ->
  Py.isnan (Py.max (c - p) 0 / interval * 100 / cores) = false.
Proof.
  unfold isfinite. rewrite !ltb_zero_l, isnan_spec. intros Hc Hp Hi Hi' Hn Hn'.
  rewrite FloatAxioms.div_spec. apply SFdiv_not_nan; [|assumption|assumption].
  rewrite FloatAxioms.mul_spec. apply SFmul_not_nan; [|reflexivity|reflexivity].
  rewrite FloatAxioms.div_spec. apply SFdiv_not_nan; [|assumption|assumption].
  unfold Py.max. destruct (_ <? 0)%float; [reflexivity|].
  rewrite FloatAxioms.sub_spec. now apply SFsub_not_nan.
Qed.

Lemma float_of_int_finite (n : Z) :
  1 <= n < 2 ^ 63 ->
  exists x : float,
    Py.float_of_int n = Return x /\ (0 <? x)%float = true /\ isfinite x = true.
Proof.
  intros Hn. destruct (binary_normalize_small n Hn) as (m & e & Hbn).
  pose proof (binary_normalize_valid n ltac:(lia)) as Hv.
  unfold Py.float_of_int, isfinite. rewrite Hbn in *.
  eexists; split; [reflexivity|]. rewrite ltb_zero_l, Prim2SF_SF2Prim by exact Hv.
  split; reflexivity.
Qed.

(** ** One observation *)

Lemma observe_first (pid : Z) (c e : float) (n : Z) (previous : gmap Z float) :
  previous !! pid = None ->
  observe pid c e n previous = (<[pid := c]> previous, Return None).
Proof. intros Hp. unfold observe. now rewrite Hp. Qed.

Lemma observe_not_positive (pid : Z) (c e : float) (n : Z) (previous : gmap Z float) :
  (0 <? e)%float = false ->
  observe pid c e n previous = (<[pid := c]> previous, Return None).
Proof. intros He. unfold observe. rewrite He. now destruct (previous !! pid). Qed.

Lemma observe_next (pid : Z) (c e : float) (n : Z) (previous : gmap Z float)
    (p cores : float) :
  previous !! pid = Some p ->
  (0 <? e)%float = true ->
  Py.float_of_int n = Return cores ->
  (0 <? cores)%float = true ->
  observe pid c e n previous
  = (<[pid := c]> previous, Return (Some (Py.max (c - p) 0 / e * 100 / cores)%float)).
Proof.
  intros Hp He Hn Hc. unfold observe. rewrite Hp, He. unfold Py.truediv.
  rewrite (positive_not_zero e He). cbn. rewrite Hn. cbn.
  now rewrite (positive_not_zero cores Hc).
Qed.

(** With a core count a machine word holds, an observation always stores the
    reading and returns. *)
Lemma observe_returns (pid : Z) (c e : float) (n : Z) (previous : gmap Z float) :
  1 <= n < 2 ^ 63 ->
  exists r, observe pid c e n previous = (<[pid := c]> previous, Return r).
Proof.
  intros Hn. destruct (float_of_int_small n Hn) as (cores & Hcores & Hpos).
  rewrite <- ltb_zero_l in Hpos.
  destruct (previous !! pid) as [p|] eqn:Hp; [|rewrite observe_first; eauto].
  destruct (0 <? e)%float eqn:He; [|rewrite observe_not_positive; eauto].
  erewrite observe_next; eauto.
Qed.

Lemma float_of_int_1 : Py.float_of_int 1 = Return 1%float.
Proof. reflexivity. Qed.

Lemma observe_stores_one_core (pid : Z) (c e : float) (previous : gmap Z float) :
  (observe pid c e 1 previous).1 = <[pid := c]> previous.
Proof. destruct (observe_returns pid c e 1 previous ltac:(lia)) as [r ->]. reflexivity. Qed.

Lemma observe_twice (pid : Z) (c1 c2 e : float) (st : gmap Z float) :
  (0 <? e)%float = true ->
  (observe pid c2 e 1 (observe pid c1 e 1 st).1).2
  = Return (Some (Py.max (c2 - c1) 0 / e * 100 / 1)%float).
Proof.
  intros He. rewrite observe_stores_one_core.
  rewrite (observe_next pid c2 e 1 _ c1 1%float);
    [reflexivity|apply lookup_insert_eq|assumption|reflexivity|reflexivity].
Qed.

(** A later observation over a positive interval returns a number that is
    not negative, and [>= 0] when the readings and the interval are finite. *)
Lemma observe_later (pid : Z) (c e p : float) (n : Z) (previous : gmap Z float) :
  previous !! pid = Some p ->
  (0 <? e)%float = true ->
  1 <= n < 2 ^ 63 ->
  exists v : float,
    observe pid c e n previous = (<[pid := c]> previous, Return (Some v))
    /\ (v <? 0)%float = false
    /\ (isfinite c = true -> isfinite p = true -> isfinite e = true ->
        (0 <=? v)%float = true).
Proof.
  intros Hp He Hn. destruct (float_of_int_finite n Hn) as (cores & Hcores & Hpos & Hfin).
  exists (Py.max (c - p) 0 / e * 100 / cores)%float. split; [now apply observe_next|].
  assert (Hnn : (Py.max (c - p) 0 / e * 100 / cores <? 0)%float = false)
    by (apply utilization_nonneg; auto using max_zero_nonneg).
  split; [exact Hnn|]. intros Hc Hp' He'.
  apply not_negative_ge; [exact Hnn|]. now apply utilization_not_nan.
Qed.

(** C2. With a stored cumulative value [p] for the pid and a positive interval
    [e], an observation of [c] on [n] cores yields [max(c - p, 0) / e * 100 / n];
    that value is never negative ([>= 0] for finite readings), and is exactly
    zero when the counter went backwards.  Observing 10.0 and then 15.0 over
    10 s on one core gives 50.0; observing 10.0 and then 8.0 gives 0.0. *)
Theorem observe_utilization (pid : Z) (c e p : float) (n : Z) (previous : gmap Z float) :
  previous !! pid = Some p ->
  (0 <? e)%float = true ->
  1 <= n < 2 ^ 63 ->
  exists cores : float,
    Py.float_of_int n = Return cores
    /\ observe pid c e n previous
       = (<[pid := c]> previous, Return (Some (Py.max (c - p) 0 / e * 100 / cores)%float))
    /\ (Py.max (c - p) 0 / e * 100 / cores <? 0)%float = false
    /\ (isfinite c = true -> isfinite p = true -> isfinite e = true ->
        (0 <=? Py.max (c - p) 0 / e * 100 / cores)%float = true)
    /\ ((c - p <? 0)%float = true -> (Py.max (c - p) 0 / e * 100 / cores)%float = 0%float)
    /\ (forall st, (observe pid 15 10 1 (observe pid 10 10 1 st).1).2 = Return (Some 50%float))
    /\ (forall st, (observe pid 8 10 1 (observe pid 10 10 1 st).1).2 = Return (Some 0%float)).
Proof.
  intros Hp He Hn. destruct (float_of_int_finite n Hn) as (cores & Hcores & Hpos & Hfin).
  exists cores. split; [exact Hcores|].
  split; [now apply observe_next|].
  assert (Hnn : (Py.max (c - p) 0 / e * 100 / cores <? 0)%float = false)
    by (apply utilization_nonneg; auto using max_zero_nonneg).
  split; [exact Hnn|].
  split.
  { intros Hc Hp' He'. apply not_negative_ge; [exact Hnn|]. now apply utilization_not_nan. }
  split.
  { intros Hneg. unfold Py.max. rewrite Hneg. now apply utilization_zero. }
  split; intros st; rewrite observe_twice by reflexivity; reflexivity.
Qed.

Lemma observe_utilization_witness :
  exists cores : float,
    Py.float_of_int 4 = Return cores
    /\ observe 7 30 10 4 {[ 7 := 10%float ]}
       = (<[7 := 30%float]> {[ 7 := 10%float ]},
          Return (Some (Py.max (30 - 10) 0 / 10 * 100 / cores)%float)).
Proof.
  destruct (observe_utilization 7 30 10 10 4 {[ 7 := 10%float ]})
    as (cores & H1 & H2 & _); [reflexivity|reflexivity|lia|].
  exists cores. split; assumption.
Defined.

(** ** A series of observations *)


Lemma observe_one_stores (o : observation) (st : gmap Z float) :
  valid_cores o -> (observe_one o st).1 = <[obs_pid o := obs_cpu o]> st.
Proof.
  intros Hv. unfold observe_one.
  destruct (observe_returns (obs_pid o) (obs_cpu o) (obs_elapsed o) (obs_cores o) st Hv)
    as [r ->]. reflexivity.
Qed.

Lemma observe_all_cons (o : observation) (rest : list observation) (st : gmap Z float) :
  observe_all (o :: rest) st
  = ((observe_all rest (observe_one o st).1).1,
     (observe_one o st).2 :: (observe_all rest (observe_one o st).1).2).
Proof.
  simpl. destruct (observe_one o st) as [st' r]. simpl.
  now destruct (observe_all rest st') as [final rs].
Qed.

Lemma observe_all_state (calls : list observation) : forall (st : gmap Z float) (pid : Z),
  Forall valid_cores calls ->
  (observe_all calls st).1 !! pid = latest calls pid (st !! pid).
Proof.
  induction calls as [|o rest IH]; intros st pid Hv; [reflexivity|].
  inversion Hv as [|? ? Ho Hrest]; subst.
  rewrite observe_all_cons. cbn [fst latest]. rewrite IH by assumption.
  rewrite observe_one_stores by assumption. f_equal.
  destruct (Z.eqb_spec (obs_pid o) pid) as [->|Hne].
  - apply lookup_insert_eq.
  - now apply lookup_insert_ne.
Qed.

Lemma observe_all_result (calls : list observation) : forall (st : gmap Z float) (i : nat) o,
  Forall valid_cores calls ->
  calls !! i = Some o ->
  (observe_all calls st).2 !! i = Some (observe_one o (observe_all (take i calls) st).1).2.
Proof.
  induction calls as [|o' rest IH]; intros st i o Hv Hi; [discriminate|].
  inversion Hv as [|? ? Ho Hrest]; subst.
  rewrite observe_all_cons. destruct i as [|i]; simpl in Hi.
  - injection Hi as ->. reflexivity.
  - cbn [snd take]. rewrite observe_all_cons. cbn [fst]. simpl lookup.
    now apply IH.
Qed.

Lemma latest_app (l1 l2 : list observation) (pid : Z) (stored : option float) :
  latest (l1 ++ l2) pid stored = latest l2 pid (latest l1 pid stored).
Proof. revert stored. induction l1 as [|o l1 IH]; intros stored; simpl; auto. Qed.

Lemma latest_first_call (calls : list observation) (pid : Z) :
  first_call_for pid calls = true -> forall stored, latest calls pid stored = stored.
Proof.
  induction calls as [|o rest IH]; intros Hf stored; [reflexivity|].
  simpl in Hf. apply andb_true_iff in Hf as [Ho Hrest]. simpl.
  apply negb_true_iff in Ho. rewrite Ho. now apply IH.
Qed.

Lemma latest_later_call (calls : list observation) (pid : Z) :
  first_call_for pid calls = false -> forall stored, is_Some (latest calls pid stored).
Proof.
  induction calls as [|o rest IH]; intros Hf stored; [discriminate|].
  simpl in Hf. simpl. destruct (obs_pid o =? pid) eqn:Ho; simpl in Hf.
  - destruct (first_call_for pid rest) eqn:Hr.
    + rewrite latest_first_call by assumption. eauto.
    + now apply IH.
  - now apply IH.
Qed.

Lemma latest_finite (calls : list observation) (pid : Z) :
  Forall finite_readings calls ->
  forall stored p,
    (forall q, stored = Some q -> isfinite q = true) ->
    latest calls pid stored = Some p -> isfinite p = true.
Proof.
  induction 1 as [|o rest [Ho _] Hrest IH]; intros stored p Hstored; simpl.
  - apply Hstored.
  - apply IH. destruct (obs_pid o =? pid); [|exact Hstored]. now intros q [= <-].
Qed.

(** C3, as the code has it.  In any series of observations with valid core
    counts, started from an empty table: the first observation of a pid is
    absent; a later one is absent when the interval is not positive, and
    otherwise a number that is never negative (it is [>= 0] unless it is NaN,
    so whenever the readings and intervals of the series are finite); and
    every observation stores its cumulative reading, whatever it returned. *)
Theorem observe_sequence (calls : list observation) (i : nat) (o : observation) :
  Forall valid_cores calls ->
  calls !! i = Some o ->
  exists r : option float,
    (observe_all calls ∅).2 !! i = Some (Return r)
    /\ (first_call_for (obs_pid o) (take i calls) = true -> r = None)
    /\ (first_call_for (obs_pid o) (take i calls) = false ->
        (0 <? obs_elapsed o)%float = false -> r = None)
    /\ (first_call_for (obs_pid o) (take i calls) = false ->
        (0 <? obs_elapsed o)%float = true ->
        exists v : float,
          r = Some v /\ (v <? 0)%float = false
          /\ (Py.isnan v = false -> (0 <=? v)%float = true)
          /\ (Forall finite_readings calls -> (0 <=? v)%float = true))
    /\ (observe_all (take (S i) calls) ∅).1 !! obs_pid o = Some (obs_cpu o).
Proof.
  intros Hv Hi.
  assert (Hvo : valid_cores o).
  { rewrite Forall_forall in Hv. apply Hv. eapply list_elem_of_lookup_2; eauto. }
  assert (Hvt : forall k, Forall valid_cores (take k calls)).
  { intros k. apply Forall_take. exact Hv. }
  pose proof (observe_all_result calls ∅ i o Hv Hi) as Hres.
  set (st := (observe_all (take i calls) ∅).1) in *.
  assert (Hst : st !! obs_pid o = latest (take i calls) (obs_pid o) None).
  { unfold st. rewrite observe_all_state by auto. now rewrite lookup_empty. }
  destruct (observe_returns (obs_pid o) (obs_cpu o) (obs_elapsed o) (obs_cores o) st Hvo)
    as [r Hr].
  exists r. unfold observe_one in Hres. rewrite Hr in Hres.
  split; [exact Hres|]. split; [|split; [|split]].
  - intros Hfirst. rewrite latest_first_call in Hst by assumption.
    rewrite observe_first in Hr by assumption. congruence.
  - intros _ He. rewrite observe_not_positive in Hr by assumption. congruence.
  - intros Hlater He.
    destruct (latest_later_call _ _ Hlater None) as [p Hp]. rewrite Hp in Hst.
    destruct (observe_later _ (obs_cpu o) _ p _ st Hst He Hvo) as (v & Hobs & Hnn & Hfin).
    rewrite Hobs in Hr. injection Hr as <-.
    exists v. split; [reflexivity|]. split; [exact Hnn|]. split.
    + intros Hnan. now apply not_negative_ge.
    + intros Hall.
      assert (Ho : finite_readings o).
      { rewrite Forall_forall in Hall. apply Hall. eapply list_elem_of_lookup_2; eauto. }
      destruct Ho as [Hc He']. apply Hfin; [exact Hc| |exact He'].
      apply (latest_finite (take i calls) (obs_pid o) (Forall_take _ _ _ Hall) None p);
        [discriminate|exact Hp].
  - rewrite observe_all_state by auto. rewrite lookup_empty.
    rewrite (take_S_r _ _ _ Hi), latest_app. simpl. now rewrite Z.eqb_refl.
Qed.

Lemma observe_sequence_witness :
  exists r : option float, (observe_all calls_10s_apart ∅).2 !! 1%nat = Some (Return r).
Proof.
  destruct (observe_sequence calls_10s_apart 1
              {| obs_pid := 1; obs_cpu := 15; obs_elapsed := 10; obs_cores := 1 |})
    as (r & Hr & _).
  - repeat constructor; unfold valid_cores; simpl; lia.
  - reflexivity.
  - exists r. exact Hr.
Defined.

(** C3 as stated fails: the second observation of pid 1, made with no time
    elapsed, returns no number at all. *)
Lemma observe_sequence_counterexample :
  first_call_for 1 (take 1 calls_no_time_elapsed) = false
  /\ ~ (exists v : float,
          (observe_all calls_no_time_elapsed ∅).2 !! 1%nat = Some (Return (Some v))
          /\ (0 <=? v)%float = true).
Proof.
  split; [reflexivity|]. intros (v & Hv & _). vm_compute in Hv. discriminate.
Qed.

(** C4. With an interval that is zero or negative, an observation is absent
    and raises nothing, whatever the readings, the table and the core count
    are; every process sample [_collect_processes] returns has no
    utilisation. *)
Theorem nonpositive_interval_absent `{PyLib} (h : host) (cfg : config) (interval : float) :
  (interval <=? 0)%float = true ->
  (forall pid c n previous,
     observe pid c interval n previous = (<[pid := c]> previous, Return None))
  /\ (forall previous previous' samples,
        _collect_processes h cfg interval previous = (previous', Return samples) ->
        Forall (fun s => cpu_percent s = None) samples).
Proof.
  intros Hle. pose proof (nonpositive_not_positive interval Hle) as Hnp.
  split; [intros; now apply observe_not_positive|].
  assert (Hrow : forall process previous previous' s,
            process_row h process interval previous = (previous', Return (Some s)) ->
            cpu_percent s = None).
  { intros process previous previous' s. unfold process_row.
    intros Hrow. repeat case_match; simplify_eq.
    all: match goal with
         | Hobs : observe _ _ _ _ _ = _ |- _ =>
             rewrite observe_not_positive in Hobs by assumption; now simplify_eq
         end. }
  assert (Hrows : forall rows previous acc previous' samples,
            Forall (fun s => cpu_percent s = None) acc ->
            process_rows h rows interval previous acc = (previous', Return samples) ->
            Forall (fun s => cpu_percent s = None) samples).
  { induction rows as [|process rest IH]; intros previous acc previous' samples Hacc Hrun.
    - simpl in Hrun. now simplify_eq.
    - simpl in Hrun. destruct (process_row h process interval previous) as [p1 [r|e]] eqn:Hr;
        [|discriminate].
      eapply IH; [|exact Hrun]. destruct r as [s|]; [|exact Hacc].
      apply Forall_app. split; [exact Hacc|]. constructor; [|constructor].
      eapply Hrow; eauto. }
  intros previous previous' samples. unfold _collect_processes.
  destruct (query_rows h (processes_script cfg)) as [[rows|]|e]; intros Hrun.
  - eapply Hrows; [|exact Hrun]. constructor.
  - simplify_eq. constructor.
  - discriminate.
Qed.

Lemma nonpositive_interval_absent_witness :
  observe 1 5 0 4 ∅ = (<[1 := 5%float]> ∅, Return None).
Proof.
  apply (proj1 (nonpositive_interval_absent (H := table_lib [] [])
                  (host_running all_commands_fail (Some 4) (Response 200))
                  default_config 0 ltac:(reflexivity))).
Defined.



(** Whatever a host reports, the divisor is at least one. *)
Lemma cpu_count_positive (h : host) :
  match os_cpu_count h with Some n => 0 <= n | None => True end -> 1 <= cpu_count h.
Proof.
  unfold cpu_count. destruct (os_cpu_count h) as [n|]; [|lia].
  destruct (Z.eqb_spec n 0); lia.
Qed.

(** ** The snapshot cycle *)

Lemma bind_Return {A B : Type} (m : res A) (f : A -> res B) (b : B) :
  m ≫= f = Return b -> exists a, m = Return a /\ f a = Return b.
Proof. destruct m as [a|e]; [eauto|discriminate]. Qed.

Ltac invert_bind :=
  cbv beta iota delta [mbind res_bind] in *;
  repeat match goal with
         | Hb : match ?m with Return _ => _ | Raise _ => _ end = Return _ |- _ =>
             destruct m eqn:?; [|discriminate Hb]
         | Hr : Return _ = Return _ |- _ => injection Hr as Hr; subst
         end.

Lemma collect_snapshot_stamps `{PyLib} (h : host) (cfg : config) (now : float) (g : globals) :
  _PREVIOUS_COLLECTED_AT (_collect_snapshot h cfg now g).1 = Some now.
Proof. unfold _collect_snapshot. repeat case_match; reflexivity. Qed.

(** The process list of a snapshot is what [_collect_processes] returned. *)
Lemma collect_snapshot_processes `{PyLib} (h : host) (cfg : config) (now : float)
    (g g' : globals) (s : snapshot) :
  _collect_snapshot h cfg now g = (g', Return s) ->
  _collect_processes h cfg (snapshot_interval cfg now (_PREVIOUS_COLLECTED_AT g))
    (_PREVIOUS_CPU_TIMES g)
  = (_PREVIOUS_CPU_TIMES g', Return (processes s)).
Proof.
  unfold _collect_snapshot.
  destruct (_ ≫= _) as [[[cpu mem] disks]|e]; [|discriminate].
  destruct (_collect_processes h cfg _ _) as [p' [samples|e]]; [|discriminate].
  destruct (_collect_events h cfg) as [events|e]; cbn [mbind res_bind]; [|discriminate].
  destruct (try_except _ _ _) as [ip|e]; cbn [mbind res_bind]; [|discriminate].
  intros [= <- <-]. reflexivity.
Qed.

(** C5. The delta computation of a cycle is [_collect_processes] on the
    interval [now] minus the previous collection time, or on the configured
    [POLL_INTERVAL] on the first cycle: whenever the three collectors before
    it return, it decides the table of CPU times after the cycle and the
    process list of the snapshot, also when a later collector raises.  And
    [_PREVIOUS_COLLECTED_AT] is [now] after the cycle, whether the collection
    returned a snapshot or raised, and whether or not the delivery that
    follows succeeds. *)
Theorem collection_interval `{PyLib} (h : host) (cfg : config) (clock : cycle_clock)
    (g : globals) :
  let interval :=
    match _PREVIOUS_COLLECTED_AT g with
    | Some previous => (now clock - previous)%float
    | None => POLL_INTERVAL cfg
    end in
  let delta := _collect_processes h cfg interval (_PREVIOUS_CPU_TIMES g) in
  let cycle := _collect_snapshot h cfg (now clock) g in
  (forall cpu mem dsk,
     _collect_cpu_percent h = Return cpu ->
     _collect_memory h = Return mem ->
     _collect_disks h = Return dsk ->
     _PREVIOUS_CPU_TIMES cycle.1 = delta.1
     /\ cycle.2
        = (samples ← delta.2;
           listed ← _collect_events h cfg;
           ip_address ← try_except (ip ← gethostbyname h (gethostname h); Return (Some ip))
                                   [OSError] None;
           Return {| agent_id := AGENT_ID cfg;
                     hostname := gethostname h;
                     ip := ip_address;
                     collected_at := strftime_utc (now clock);
                     snapshot_metrics := {| metrics_cpu_percent := cpu;
                                            memory := mem;
                                            disks := dsk |};
                     processes := samples;
                     events := listed |}))
  /\ (forall s,
        cycle.2 = Return s ->
        delta = (_PREVIOUS_CPU_TIMES cycle.1, Return (processes s)))
  /\ _PREVIOUS_COLLECTED_AT cycle.1 = Some (now clock)
  /\ _PREVIOUS_COLLECTED_AT (collect_and_send h cfg clock g).1 = Some (now clock)
  /\ _PREVIOUS_COLLECTED_AT (main_cycle h cfg clock g).1 = Some (now clock).
Proof.
  intros interval delta cycle.
  assert (Hsend : _PREVIOUS_COLLECTED_AT (collect_and_send h cfg clock g).1 = Some (now clock)).
  { unfold collect_and_send. pose proof (collect_snapshot_stamps h cfg (now clock) g) as Hs.
    destruct (_collect_snapshot h cfg (now clock) g) as [g' r]. simpl in Hs.
    repeat case_match; exact Hs. }
  split; [|split; [|split; [apply collect_snapshot_stamps|split; [exact Hsend|]]]].
  - intros cpu mem dsk Hcpu Hmem Hdsk. subst cycle delta. unfold _collect_snapshot.
    rewrite Hcpu, Hmem, Hdsk. cbn [mbind res_bind]. unfold snapshot_interval. fold interval.
    destruct (_collect_processes h cfg interval (_PREVIOUS_CPU_TIMES g)) as [p' [samples|e]];
      split; reflexivity.
  - intros s. subst cycle delta. unfold _collect_snapshot. fold interval.
    unfold snapshot_interval. fold interval. repeat case_match; simpl; intros Hs; simplify_eq.
    invert_bind. reflexivity.
  - unfold main_cycle. destruct (collect_and_send h cfg clock g) as [g' [line|e]]; [|exact Hsend].
    destruct (Py.sleep_check _); exact Hsend.
Qed.

Lemma collection_interval_witness :
  (_collect_snapshot (H := reads_processes sample_ranked) ranking_host two_processes
     (now cycle_at_1010) read_at_1000).2
  = Return {| agent_id := "host-1";
              hostname := "host-1";
              ip := Some "192.0.2.1";
              collected_at := "2024-01-01T00:00:00Z";
              snapshot_metrics := {| metrics_cpu_percent := None;
                                     memory := unavailable_memory;
                                     disks := [] |};
              processes := [sample_b; sample_a 7.5];
              events := [] |}
  /\ _PREVIOUS_COLLECTED_AT
       (main_cycle (H := reads_processes sample_ranked) ranking_host two_processes
          cycle_at_1010 read_at_1000).1
     = Some 1010%float.
Proof.
  destruct (collection_interval (H := reads_processes sample_ranked) ranking_host
              two_processes cycle_at_1010 read_at_1000) as (Hrun & _ & _ & _ & Hmain).
  split; [|exact Hmain].
  destruct (Hrun None unavailable_memory [] ltac:(vm_compute; reflexivity)
              ltac:(vm_compute; reflexivity) ltac:(vm_compute; reflexivity)) as [_ Hcycle].
  eapply eq_trans; [exact Hcycle|]. vm_compute. reflexivity.
Defined.

(** ** The polling loop *)

Lemma max_floor (x : float) : (Py.max x 5 <? 5)%float = false.
Proof. unfold Py.max. destruct (x <? 5)%float eqn:Hx; [reflexivity|exact Hx]. Qed.

Lemma SFcompare_antisym (a b : spec_float) :
  SFcompare b a = option_map CompOpp (SFcompare a b).
Proof.
  unfold SFcompare.
  destruct a as [[]|[]| |[] ma ea], b as [[]|[]| |[] mb eb]; try reflexivity; cbn [option_map].
  all: pose proof (Pos.compare_cont_antisym ma mb Eq) as Hm; cbn [CompOpp] in Hm;
    rewrite (Z.compare_antisym ea eb), <- Hm;
    destruct (ea ?= eb); cbn [CompOpp]; try reflexivity;
    now destruct (Pos.compare_cont Eq ma mb).
Qed.

(** On doubles that are numbers, [x < y] fails only when [y <= x]. *)
Lemma not_less_ge (x y : float) :
  (x <? y)%float = false -> Py.isnan x = false -> Py.isnan y = false ->
  (y <=? x)%float = true.
Proof.
  rewrite FloatAxioms.ltb_spec, FloatAxioms.leb_spec, !isnan_spec.
  unfold SFltb, SFleb. rewrite (SFcompare_antisym (Prim2SF x) (Prim2SF y)).
  intros Hlt Hx Hy.
  assert (Hc : SFcompare (Prim2SF x) (Prim2SF y) <> None).
  { unfold SFcompare.
    destruct (Prim2SF x) as [[]|[]| |[] mx ex], (Prim2SF y) as [[]|[]| |[] my ey];
      discriminate. }
  destruct (SFcompare (Prim2SF x) (Prim2SF y)) as [[]|]; cbn [option_map CompOpp];
    [reflexivity|discriminate Hlt|reflexivity|contradiction].
Qed.

Lemma sleep_check_number (seconds : float) :
  Py.sleep_check seconds = Return tt -> Py.isnan seconds = false.
Proof. unfold Py.sleep_check. now destruct (Py.isnan seconds). Qed.

Lemma sleep_time_number `{PyLib} (cfg : config) (clock : cycle_clock) :
  Py.isnan (sleep_time cfg clock) = false ->
  (5 <=? sleep_time cfg clock)%float = true.
Proof.
  unfold sleep_time, Py.max.
  destruct (_ <? 5)%float eqn:Hlt; [reflexivity|].
  intros Hnan. now apply not_less_ge.
Qed.

Lemma sleep_time_floor_reached `{PyLib} (cfg : config) (clock : cycle_clock) :
  Py.sleep_check (sleep_time cfg clock) = Return tt ->
  (5 <=? sleep_time cfg clock)%float = true.
Proof. intros Hcheck. now apply sleep_time_number, sleep_check_number. Qed.

(** C8. A turn of the loop that leaves its [try] statement normally hands
    [max(POLL_INTERVAL - elapsed, 5)] to [time.sleep], with [elapsed] the
    duration of the cycle, and what [time.sleep] does is how the turn ends.
    Every wait that begins lasts that long, which is at least the floor of 5
    seconds; and when the cycle has consumed the interval the turn waits for
    exactly 5 seconds. *)
Theorem sleep_time_floor `{PyLib} (h : host) (cfg : config) (clock : cycle_clock)
    (g : globals) :
  let elapsed := (finished clock - started clock)%float in
  let duration := Py.max (POLL_INTERVAL cfg - elapsed) 5 in
  let turn := (main_cycle h cfg clock g).2 in
  (forall line,
     (collect_and_send h cfg clock g).2 = Return line ->
     turn.2 = time_sleep h duration
     /\ turn.1 = Prints line :: match Py.sleep_check duration with
                               | Return _ => [Sleeps duration]
                               | Raise _ => []
                               end)
  /\ (forall seconds,
        In (Sleeps seconds) turn.1 ->
        seconds = duration /\ (5 <=? seconds)%float = true)
  /\ (duration <? 5)%float = false
  /\ ((POLL_INTERVAL cfg - elapsed <? 5)%float = true ->
      duration = 5%float
      /\ forall line,
           (collect_and_send h cfg clock g).2 = Return line ->
           turn = ([Prints line; Sleeps 5], sleep h 5)).
Proof.
  intros elapsed duration turn.
  assert (Hturn : forall line,
            (collect_and_send h cfg clock g).2 = Return line ->
            turn = match Py.sleep_check duration with
                   | Return _ => ([Prints line; Sleeps duration], sleep h duration)
                   | Raise exc => ([Prints line], Raise exc)
                   end).
  { intros line Hline. subst turn. unfold main_cycle.
    destruct (collect_and_send h cfg clock g) as [g' logged]. cbn [snd] in Hline. subst logged.
    change (sleep_time cfg clock) with duration.
    destruct (Py.sleep_check duration); reflexivity. }
  split; [|split; [|split; [apply max_floor|]]].
  - intros line Hline. rewrite (Hturn line Hline). unfold time_sleep.
    destruct (Py.sleep_check duration) as [[]|exc]; split; reflexivity.
  - intros seconds. subst turn. unfold main_cycle.
    destruct (collect_and_send h cfg clock g) as [g' [line|exc]]; [|intros []].
    destruct (Py.sleep_check (sleep_time cfg clock)) as [[]|exc] eqn:Hcheck; cbn [fst snd In].
    + intros [Hin|[Hin|[]]]; [discriminate Hin|]. injection Hin as <-.
      split; [reflexivity|]. now apply sleep_time_floor_reached.
    + intros [Hin|[]]. discriminate Hin.
  - intros Hlt.
    assert (Hfloor : duration = 5%float) by (subst duration; unfold Py.max; now rewrite Hlt).
    split; [exact Hfloor|]. intros line Hline. rewrite (Hturn line Hline), Hfloor. reflexivity.
Qed.

Lemma sleep_time_floor_witness :
  (main_cycle (H := table_lib [] []) failing_host default_config slow_cycle initial_globals).2
  = ([Prints (Stdout "[2024-01-01 00:00:00] Sent metrics for host-1"); Sleeps 5], Return tt)
  /\ In (Sleeps 28)
       (main_cycle (H := table_lib [] []) failing_host default_config quick_cycle
          initial_globals).2.1.
Proof.
  split.
  - apply (sleep_time_floor (H := table_lib [] []) failing_host default_config slow_cycle
             initial_globals); reflexivity.
  - rewrite (proj2 (proj1 (sleep_time_floor (H := table_lib [] []) failing_host default_config
                             quick_cycle initial_globals)
                      (Stdout "[2024-01-01 00:00:00] Sent metrics for host-1") eq_refl)).
    right. left. reflexivity.
Defined.

(** ** Delivery *)

Lemma post_snapshot_fails `{PyLib} (h : host) (cfg : config) (payload : snapshot) (e : exn) :
  _post_snapshot h cfg payload = Raise e <-> delivery_failure h cfg payload e.
Proof.
  unfold _post_snapshot. split.
  - destruct (json_dumps payload) as [body|e'] eqn:Hd; unfold mbind, res_bind.
    + destruct (urlopen h (ingest_request cfg body)) as [status|e'] eqn:Hu.
      * destruct (Z.leb_spec 400 status); [|discriminate].
        unfold raise. intros [= <-]. eapply status_failure; eauto.
      * intros [= <-]. eapply transport_failure; eauto.
    + intros [= <-]. now apply serialization_failure.
  - intros [e' Hd|body e' Hd Hu|body status Hd Hu Hs]; rewrite Hd; unfold mbind, res_bind;
      [reflexivity| |].
    + now rewrite Hu.
    + rewrite Hu. destruct (Z.leb_spec 400 status); [reflexivity|lia].
Qed.

(** C7. Each failed delivery - a payload that cannot be serialised, [urlopen]
    raising on a network error or a timeout, a status of 400 or more such as
    500 - makes [_post_snapshot] raise an exception that carries the cause.
    When the exception is an [Exception], as [RuntimeError], [OSError] with
    its subclasses, [TypeError] and [ValueError] are, the loop catches it and
    prints the cause: nothing is left uncaught. *)
Theorem delivery_failure_reported `{PyLib} (h : host) (cfg : config) (clock : cycle_clock)
    (g g' : globals) (payload : snapshot) (e : exn) :
  delivery_failure h cfg payload e ->
  _post_snapshot h cfg payload = Raise e
  /\ (forall body,
        json_dumps payload = Return body ->
        urlopen h (ingest_request cfg body) = Response 500 ->
        e = mk_exn RuntimeError "Ingest failed with status 500")
  /\ (_collect_snapshot h cfg (now clock) g = (g', Return payload) ->
      issubclass (exn_cls e) Exception = true ->
      collect_and_send h cfg clock g
      = (g', Return (Stderr ("Error collecting or sending metrics: " +:+ exn_msg e))))
  /\ Forall (fun c => issubclass c Exception = true)
       [RuntimeError; OSError; FileNotFoundError; PermissionError; TimeoutError;
        gaierror; URLError; HTTPError; ValueError; JSONDecodeError; TypeError;
        OverflowError].
Proof.
  intros Hf. pose proof (proj2 (post_snapshot_fails h cfg payload e) Hf) as Hpost.
  split; [exact Hpost|]. split; [|split].
  - intros body Hd Hu. destruct Hf as [e' Hd'|body' e' Hd' Hu'|body' status Hd' Hu' Hs];
      try congruence.
    assert (body' = body) by congruence. subst. assert (status = 500) by congruence.
    now subst.
  - intros Hc Hsub. unfold collect_and_send. rewrite Hc. simpl. rewrite Hpost. simpl.
    unfold caught_by. simpl. now rewrite Hsub.
  - repeat constructor.
Qed.

Lemma delivery_failure_reported_witness :
  collect_and_send (H := table_lib [] [])
    (host_running all_commands_fail (Some 4) (Response 500)) default_config quick_cycle
    initial_globals
  = ({| _PREVIOUS_CPU_TIMES := ∅; _PREVIOUS_COLLECTED_AT := Some 1000.5%float |},
     Return (Stderr "Error collecting or sending metrics: Ingest failed with status 500")).
Proof.
  apply (delivery_failure_reported (H := table_lib [] [])
           (host_running all_commands_fail (Some 4) (Response 500)) default_config quick_cycle
           initial_globals _ (degraded_snapshot "2024-01-01T00:00:00Z")
           (mk_exn RuntimeError "Ingest failed with status 500")).
  - apply (status_failure (H := table_lib [] []) _ _ _ "{}" 500); [reflexivity|reflexivity|lia].
  - reflexivity.
  - reflexivity.
Defined.

(** ** Assembly of a snapshot *)

(** A command that exits with a non-zero status is an unavailable source. *)
Lemma run_command_fails `{PyLib} (h : host) (command : list string) (rc : Z) (out err : string) :
  subprocess_run h command = Completed rc out err -> rc <> 0 ->
  exists e, _run_command h command = Raise e /\ caught_by [RuntimeError] e = true.
Proof.
  intros Hrun Hrc. unfold _run_command. rewrite Hrun.
  destruct (Z.eqb_spec rc 0); [contradiction|]. eexists; split; reflexivity.
Qed.

Lemma query_rows_fails `{PyLib} (h : host) (script : string) :
  exits_nonzero h ["powershell"; "-NoProfile"; "-Command"; script] ->
  query_rows h script = Return None.
Proof.
  intros (rc & out & err & Hrun & Hrc). unfold query_rows, _run_powershell.
  destruct (run_command_fails h _ rc out err Hrun Hrc) as (e & -> & ->). reflexivity.
Qed.

(** When every command exits with a non-zero status, the snapshot is still
    assembled: identity, host name and time stamp are there, every metric is
    absent or empty, and the table of CPU times is untouched.  Only the
    resolver can still make the assembly raise, with an exception that is not
    an [OSError]. *)
Lemma snapshot_degrades `{PyLib} (h : host) (cfg : config) (now : float) (g : globals) :
  (forall command, exits_nonzero h command) ->
  _collect_snapshot h cfg now g
  = ({| _PREVIOUS_CPU_TIMES := _PREVIOUS_CPU_TIMES g; _PREVIOUS_COLLECTED_AT := Some now |},
     (ip_address ← try_except (ip ← gethostbyname h (gethostname h); Return (Some ip))
                              [OSError] None;
      Return {| agent_id := AGENT_ID cfg;
                hostname := gethostname h;
                ip := ip_address;
                collected_at := strftime_utc now;
                snapshot_metrics := {| metrics_cpu_percent := None;
                                       memory := unavailable_memory;
                                       disks := [] |};
                processes := [];
                events := [] |})).
Proof.
  intros Hfail. unfold _collect_snapshot, _collect_cpu_percent, _collect_memory,
    _collect_disks, _collect_processes, _collect_events.
  destruct (Hfail ["wmic"; "cpu"; "get"; "LoadPercentage"; "/value"])
    as (rc1 & out1 & err1 & Hrun1 & Hrc1).
  destruct (run_command_fails h _ rc1 out1 err1 Hrun1 Hrc1) as (e1 & -> & ->).
  destruct (Hfail ["wmic"; "OS"; "get"; "FreePhysicalMemory,TotalVisibleMemorySize"; "/value"])
    as (rc2 & out2 & err2 & Hrun2 & Hrc2).
  destruct (run_command_fails h _ rc2 out2 err2 Hrun2 Hrc2) as (e2 & -> & ->).
  rewrite !query_rows_fails by apply Hfail. reflexivity.
Qed.

(** A program that cannot be started is not caught by [except RuntimeError]:
    the exception leaves [_collect_snapshot]. *)
Lemma snapshot_aborts_on_spawn_failure `{PyLib} (h : host) (cfg : config) (now : float)
    (g : globals) (e : exn) :
  subprocess_run h ["wmic"; "cpu"; "get"; "LoadPercentage"; "/value"] = SpawnFails e ->
  issubclass (exn_cls e) RuntimeError = false ->
  _collect_snapshot h cfg now g
  = ({| _PREVIOUS_CPU_TIMES := _PREVIOUS_CPU_TIMES g; _PREVIOUS_COLLECTED_AT := Some now |},
     Raise e).
Proof.
  intros Hrun Hsub. unfold _collect_snapshot, _collect_cpu_percent, _run_command.
  rewrite Hrun. unfold caught_by. cbn [existsb]. rewrite Hsub. reflexivity.
Qed.

(** C1 at a host without [wmic]: starting the first command raises
    [FileNotFoundError], which no collector catches, and no snapshot is
    assembled; the loop reports the cycle as failed. *)
Theorem snapshot_aborts_without_wmic :
  _collect_snapshot (H := table_lib [] [])
    (host_running no_wmic (Some 4) (Response 200)) default_config 1000.5 initial_globals
  = ({| _PREVIOUS_CPU_TIMES := ∅; _PREVIOUS_COLLECTED_AT := Some 1000.5%float |},
     Raise (mk_exn FileNotFoundError "[Errno 2] No such file or directory: 'wmic'"))
  /\ collect_and_send (H := table_lib [] [])
       (host_running no_wmic (Some 4) (Response 200)) default_config quick_cycle
       initial_globals
     = ({| _PREVIOUS_CPU_TIMES := ∅; _PREVIOUS_COLLECTED_AT := Some 1000.5%float |},
        Return (Stderr ("Error collecting or sending metrics: " +:+
                        "[Errno 2] No such file or directory: 'wmic'"))).
Proof.
  split.
  - now apply snapshot_aborts_on_spawn_failure.
  - reflexivity.
Qed.

(** With every command exiting with status 1 the same host does get its
    degraded snapshot. *)
Lemma snapshot_degrades_example :
  _collect_snapshot (H := table_lib [] [])
    (host_running all_commands_fail (Some 4) (Response 200)) default_config 1000.5
    initial_globals
  = ({| _PREVIOUS_CPU_TIMES := ∅; _PREVIOUS_COLLECTED_AT := Some 1000.5%float |},
     Return (degraded_snapshot "2024-01-01T00:00:00Z")).
Proof. reflexivity. Qed.

(** ** Core counts *)

Lemma float_of_int_returns (n : Z) :
  0 <= n < 2 ^ 63 -> exists x, Py.float_of_int n = Return x.
Proof.
  intros Hn. destruct (Z.eq_dec n 0) as [->|Hne]; [now eexists|].
  destruct (float_of_int_small n ltac:(lia)) as (x & Hx & _). eauto.
Qed.

Lemma valid_cpu_count (h : host) : valid_core_count h -> 1 <= cpu_count h < 2 ^ 63.
Proof.
  unfold valid_core_count, cpu_count. destruct (os_cpu_count h) as [n|]; [|lia].
  destruct (Z.eqb_spec n 0); lia.
Qed.

(** ** The line parsers never raise *)





(** * The collectors and the loop *)

(** ** The two [wmic] readers *)

(** After a key without "=", the first "=" of the line is the one that ends
    the key: [line.split("=", 1)[1]] is the rest of the line. *)
Lemma split_eq_1_value (key line : string) :
  contains_eq key = false ->
  Py.startswith line (key +:+ "=") = true ->
  Py.split_eq_1 line = Return (string_drop (String.length key + 1) line).
Proof.
  unfold Py.startswith. revert line. induction key as [|c key IH]; intros line Hk Hp.
  - change ("" +:+ "=") with "=" in Hp.
    destruct line as [|d rest]; [discriminate|]. cbn -[Ascii.ascii_dec] in Hp.
    destruct (Ascii.ascii_dec _ d) as [<-|]; [|discriminate]. reflexivity.
  - change (String c key +:+ "=") with (String c (key +:+ "=")) in Hp.
    destruct line as [|d rest]; [discriminate|]. cbn -[Ascii.ascii_dec] in Hp.
    destruct (Ascii.ascii_dec c d) as [<-|]; [|discriminate].
    cbn [contains_eq] in Hk. apply orb_false_iff in Hk as [Hc Hk].
    cbn [Py.split_eq_1]. rewrite Hc. rewrite (IH rest Hk Hp). reflexivity.
Qed.

Lemma load_percentage_first `{PyLib} (lines : list string) :
  load_percentage lines
  = Return (line_value "LoadPercentage" (first_line "LoadPercentage" lines)).
Proof.
  unfold first_line. induction lines as [|line rest IH]; [reflexivity|].
  cbn [load_percentage find].
  change ("LoadPercentage" +:+ "=") with "LoadPercentage=" in *.
  destruct (Py.startswith line "LoadPercentage=") eqn:Hp; [|exact IH].
  now rewrite (split_eq_1_value "LoadPercentage" line eq_refl Hp).
Qed.

(** X1. Once [wmic] can be started, [_collect_cpu_percent] returns: [None] for
    a non-zero exit status, and otherwise the number on the first line of the
    form [LoadPercentage=...] of the stripped output - later lines are never
    read, and the result is [None] when there is no such line or when its
    text does not read as a number. *)
Theorem cpu_percent_first_line `{PyLib} (h : host) (rc : Z) (out err : string) :
  subprocess_run h cpu_command = Completed rc out err ->
  _collect_cpu_percent h
  = Return (if rc =? 0
            then line_value "LoadPercentage"
                   (first_line "LoadPercentage" (splitlines (strip out)))
            else None).
Proof.
  intros Hrun. unfold _collect_cpu_percent, _run_command. fold cpu_command. rewrite Hrun.
  destruct (rc =? 0); [apply load_percentage_first|reflexivity].
Qed.

Lemma cpu_percent_first_line_witness :
  _collect_cpu_percent (H := table_lib [] number_table)
    (host_running (wmic_prints two_loads) (Some 4) (Response 200))
  = Return (Some 100%float).
Proof.
  rewrite (cpu_percent_first_line (H := table_lib [] number_table)
             (host_running (wmic_prints two_loads) (Some 4) (Response 200))
             0 two_loads ""); reflexivity.
Defined.

Lemma find_app {A : Type} (P : A -> bool) (l1 l2 : list A) :
  find P (l1 ++ l2)%list = match find P l1 with Some x => Some x | None => find P l2 end.
Proof. induction l1 as [|x l1 IH]; [reflexivity|]. simpl. now destruct (P x). Qed.

Lemma last_line_cons (key line : string) (rest : list string) :
  last_line key (line :: rest)
  = match last_line key rest with
    | Some found => Some found
    | None => if Py.startswith line (key +:+ "=") then Some line else None
    end.
Proof.
  unfold last_line, first_line. cbn [rev]. rewrite find_app. cbn [find].
  now destruct (Py.startswith line (key +:+ "=")).
Qed.

Lemma total_line_not_free (line : string) :
  Py.startswith line "TotalVisibleMemorySize=" = true ->
  Py.startswith line "FreePhysicalMemory=" = false.
Proof.
  unfold Py.startswith. destruct line as [|c rest]; [discriminate|].
  cbn -[Ascii.ascii_dec]. destruct (Ascii.ascii_dec _ c) as [<-|]; [|discriminate].
  reflexivity.
Qed.

Lemma memory_lines_last `{PyLib} (lines : list string) : forall kb,
  memory_lines kb lines
  = Return (match last_line "TotalVisibleMemorySize" lines with
            | Some line => line_value "TotalVisibleMemorySize" (Some line)
            | None => kb.1
            end,
            match last_line "FreePhysicalMemory" lines with
            | Some line => line_value "FreePhysicalMemory" (Some line)
            | None => kb.2
            end).
Proof.
  induction lines as [|line rest IH]; intros [total_kb free_kb]; [reflexivity|].
  cbn [memory_lines]. rewrite !last_line_cons. unfold memory_line.
  change ("TotalVisibleMemorySize" +:+ "=") with "TotalVisibleMemorySize=".
  change ("FreePhysicalMemory" +:+ "=") with "FreePhysicalMemory=".
  destruct (Py.startswith line "TotalVisibleMemorySize=") eqn:Ht.
  - rewrite (total_line_not_free line Ht).
    rewrite (split_eq_1_value "TotalVisibleMemorySize" line eq_refl Ht).
    cbn [mbind res_bind]. rewrite IH. cbn [fst snd].
    now destruct (last_line "TotalVisibleMemorySize" rest),
                 (last_line "FreePhysicalMemory" rest).
  - destruct (Py.startswith line "FreePhysicalMemory=") eqn:Hf.
    + rewrite (split_eq_1_value "FreePhysicalMemory" line eq_refl Hf).
      cbn [mbind res_bind]. rewrite IH. cbn [fst snd].
      now destruct (last_line "TotalVisibleMemorySize" rest),
                   (last_line "FreePhysicalMemory" rest).
    + cbn [mbind res_bind]. rewrite IH. cbn [fst snd].
      now destruct (last_line "TotalVisibleMemorySize" rest),
                   (last_line "FreePhysicalMemory" rest).
Qed.

(** X2. Once [wmic] can be started, [_collect_memory] returns: the
    unavailable reading for a non-zero exit status, and otherwise the reading
    built from the last line of the form [TotalVisibleMemorySize=...] and the
    last line of the form [FreePhysicalMemory=...] - a later line overrides
    an earlier one, also when its text does not read as a number, and a
    missing or unreadable line of either kind makes both fields absent. *)
Theorem memory_last_lines `{PyLib} (h : host) (rc : Z) (out err : string) :
  subprocess_run h memory_command = Completed rc out err ->
  let lines := splitlines (strip out) in
  _collect_memory h
  = Return (if rc =? 0
            then memory_of
                   (line_value "TotalVisibleMemorySize"
                      (last_line "TotalVisibleMemorySize" lines))
                   (line_value "FreePhysicalMemory" (last_line "FreePhysicalMemory" lines))
            else unavailable_memory).
Proof.
  intros Hrun lines. unfold _collect_memory, _run_command. fold memory_command.
  rewrite Hrun. destruct (rc =? 0); [|reflexivity]. cbn [negb].
  fold lines. rewrite memory_lines_last. cbn [mbind res_bind fst snd]. unfold memory_of.
  destruct (last_line "TotalVisibleMemorySize" lines) as [tl|],
           (last_line "FreePhysicalMemory" lines) as [fl|]; cbn [line_value];
    repeat case_match; reflexivity.
Qed.

Lemma memory_last_lines_witness :
  _collect_memory (H := table_lib [] number_table)
    (host_running (wmic_prints total_twice) (Some 4) (Response 200))
  = Return {| total_bytes := Some 204800%float; used_bytes := Some 102400%float |}.
Proof.
  rewrite (memory_last_lines (H := table_lib [] number_table)
             (host_running (wmic_prints total_twice) (Some 4) (Response 200))
             0 total_twice ""); reflexivity.
Defined.

(** ** The memory reading *)

Lemma collect_memory_completed `{PyLib} (h : host) (rc : Z) (out err : string) :
  subprocess_run h memory_command = Completed rc out err ->
  _collect_memory h
  = Return (if rc =? 0
            then memory_of
                   (line_value "TotalVisibleMemorySize"
                      (last_line "TotalVisibleMemorySize" (splitlines (strip out))))
                   (line_value "FreePhysicalMemory"
                      (last_line "FreePhysicalMemory" (splitlines (strip out))))
            else unavailable_memory).
Proof.
  intros Hrun. unfold _collect_memory, _run_command. fold memory_command.
  rewrite Hrun. destruct (rc =? 0); [|reflexivity]. cbn [negb].
  rewrite memory_lines_last. cbn [mbind res_bind fst snd]. unfold memory_of.
  destruct (last_line "TotalVisibleMemorySize" _) as [tl|],
           (last_line "FreePhysicalMemory" _) as [fl|]; cbn [line_value];
    repeat case_match; reflexivity.
Qed.

Lemma collect_memory_ran `{PyLib} (h : host) (r : memory_reading) :
  _collect_memory h = Return r ->
  (exists e, subprocess_run h memory_command = SpawnFails e
             /\ caught_by [RuntimeError] e = true
             /\ r = unavailable_memory)
  \/ (exists rc out err, subprocess_run h memory_command = Completed rc out err).
Proof.
  unfold _collect_memory, _run_command. fold memory_command.
  destruct (subprocess_run h memory_command) as [e|rc out err]; [|eauto].
  destruct (caught_by [RuntimeError] e) eqn:Hc; [|discriminate].
  intros [= <-]. left. eauto.
Qed.

(** C10.  A memory reading that [_collect_memory] returns has total and used
    bytes both absent or both present.  They are absent when [wmic] fails (a
    [RuntimeError] on starting it, or a status that is not 0) or when the
    last [TotalVisibleMemorySize=] line or the last [FreePhysicalMemory=]
    line of its output is missing or does not read as a number.  Otherwise
    total is the first number times 1024, free the second times 1024, and
    used is [max(total - free, 0)]: never negative, 0 when more is free than
    the total, and [>= 0] whenever total and free are finite, as the counts
    that [wmic] prints are. *)
Theorem memory_reading_invariant `{PyLib} (h : host) (r : memory_reading) :
  _collect_memory h = Return r ->
  (total_bytes r = None /\ used_bytes r = None
   /\ ((exists e, subprocess_run h memory_command = SpawnFails e
                  /\ caught_by [RuntimeError] e = true)
       \/ (exists rc out err,
             subprocess_run h memory_command = Completed rc out err
             /\ let lines := splitlines (strip out) in
                rc <> 0
                \/ line_value "TotalVisibleMemorySize"
                     (last_line "TotalVisibleMemorySize" lines) = None
                \/ line_value "FreePhysicalMemory"
                     (last_line "FreePhysicalMemory" lines) = None)))
  \/ (exists (out err : string) (total_kb free_kb : float),
        let lines := splitlines (strip out) in
        let total := (total_kb * 1024)%float in
        let free := (free_kb * 1024)%float in
        let used := Py.max (total - free) 0 in
        subprocess_run h memory_command = Completed 0 out err
        /\ line_value "TotalVisibleMemorySize" (last_line "TotalVisibleMemorySize" lines)
           = Some total_kb
        /\ line_value "FreePhysicalMemory" (last_line "FreePhysicalMemory" lines)
           = Some free_kb
        /\ total_bytes r = Some total
        /\ used_bytes r = Some used
        /\ (used <? 0)%float = false
        /\ ((total - free <? 0)%float = true -> used = 0%float)
        /\ (Py.isnan (total - free) = false -> (0 <=? used)%float = true)
        /\ (isfinite total = true -> isfinite free = true -> (0 <=? used)%float = true)).
Proof.
  intros Hr.
  destruct (collect_memory_ran h r Hr) as [(e & Hrun & Hc & ->)|(rc & out & err & Hrun)].
  { left. cbn [total_bytes used_bytes unavailable_memory]. eauto 6. }
  rewrite (collect_memory_completed h rc out err Hrun) in Hr.
  destruct (Z.eqb_spec rc 0) as [Hrc|Hrc].
  2:{ injection Hr as <-. left. cbn [total_bytes used_bytes unavailable_memory].
      split; [reflexivity|]. split; [reflexivity|]. right. exists rc, out, err. auto. }
  destruct (line_value "TotalVisibleMemorySize" _) as [total_kb|] eqn:Htotal.
  2:{ injection Hr as <-. left. cbn [memory_of total_bytes used_bytes unavailable_memory].
      split; [reflexivity|]. split; [reflexivity|]. right. exists rc, out, err.
      split; [exact Hrun|]. cbv zeta. auto. }
  destruct (line_value "FreePhysicalMemory" _) as [free_kb|] eqn:Hfree.
  2:{ injection Hr as <-. left. cbn [memory_of total_bytes used_bytes unavailable_memory].
      split; [reflexivity|]. split; [reflexivity|]. right. exists rc, out, err.
      split; [exact Hrun|]. cbv zeta. auto. }
  injection Hr as <-. right. exists out, err, total_kb, free_kb. subst rc.
  cbn [memory_of total_bytes used_bytes]. cbv zeta.
  repeat (split; [reflexivity || assumption|]).
  split; [apply max_zero_nonneg|]. split.
  - intros Hneg. unfold Py.max. now rewrite Hneg.
  - assert (Hge : Py.isnan (total_kb * 1024 - free_kb * 1024) = false ->
                  (0 <=? Py.max (total_kb * 1024 - free_kb * 1024) 0)%float = true).
    { intros Hnan. apply not_negative_ge; [apply max_zero_nonneg|].
      unfold Py.max. destruct (_ <? 0)%float; [reflexivity|exact Hnan]. }
    split; [exact Hge|]. intros Ht Hf. apply Hge.
    rewrite isnan_spec, FloatAxioms.sub_spec. now apply SFsub_not_nan.
Qed.

Lemma memory_reading_invariant_witness :
  let h := host_running (wmic_prints more_free_than_total) (Some 4) (Response 200) in
  let r := {| total_bytes := Some 102400%float; used_bytes := Some 0%float |} in
  _collect_memory (H := table_lib [] number_table) h = Return r
  /\ exists total_kb free_kb : float,
       total_kb = 100%float
       /\ free_kb = 200%float
       /\ used_bytes r = Some (Py.max (total_kb * 1024 - free_kb * 1024) 0)
       /\ (0 <=? Py.max (total_kb * 1024 - free_kb * 1024) 0)%float = true.
Proof.
  intros h r. split; [reflexivity|].
  destruct (memory_reading_invariant (H := table_lib [] number_table) h r ltac:(reflexivity))
    as [(Hnone & _)|(out & err & total_kb & free_kb & Hrun & Ht & Hf & _ & Hu & _ & _ & _ & Hfin)].
  - discriminate Hnone.
  - injection Hrun as <- <-. vm_compute in Ht, Hf. injection Ht as <-. injection Hf as <-.
    exists 100%float, 200%float.
    split; [reflexivity|]. split; [reflexivity|]. split; [exact Hu|].
    apply Hfin; reflexivity.
Defined.

(** ** What the conversions raise *)



Lemma int_of_float_raises (x : float) (e : exn) :
  Py.int_of_float x = Raise e -> exn_cls e = ValueError \/ exn_cls e = OverflowError.
Proof.
  unfold Py.int_of_float. destruct (Prim2SF x); try discriminate; intros [= <-]; auto.
Qed.




Lemma get_raises (obj : json) (key : string) (default : json) (e : exn) :
  get obj key default = Raise e -> exn_cls e = AttributeError /\ is_object obj = false.
Proof. destruct obj; try discriminate; intros [= <-]; now split. Qed.


(** ** What the rows of a document raise *)









(** ** What a snapshot can raise *)















(** ** The table of CPU times across a process query *)

Lemma observe_table (pid : Z) (c e : float) (n : Z) (previous previous' : gmap Z float)
    (r : res (option float)) :
  observe pid c e n previous = (previous', r) ->
  match r with
  | Return _ => previous' = <[pid := c]> previous
  | Raise _ => previous' = previous
  end.
Proof.
  unfold observe. destruct (previous !! pid) as [p|].
  - destruct (0 <? e)%float.
    + destruct (_ ≫= _) as [v|e']; intros [= <- <-]; reflexivity.
    + intros [= <- <-]; reflexivity.
  - intros [= <- <-]; reflexivity.
Qed.

(** One row changes the table at one pid at most - the pid of its sample,
    when it yields one - and not at all when it is skipped. *)
Lemma process_row_table `{PyLib} (h : host) (process : json) (interval : float)
    (previous previous' : gmap Z float) (r : res (option process_sample)) :
  process_row h process interval previous = (previous', r) ->
  match r with
  | Return (Some s) => exists c, previous' = <[pid s := c]> previous
  | Return None => previous' = previous
  | Raise _ => previous' = previous \/ exists k c, previous' = <[k := c]> previous
  end.
Proof.
  unfold process_row.
  destruct (_ ≫= _) as [[[[pid_value name_value] working_set] cpu_time]|e0];
    [|intros [= <- <-]; now left].
  destruct (_ || _); [intros [= <- <-]; reflexivity|].
  destruct (py_int pid_value) as [pid_int|e1].
  2:{ destruct (caught_by _ e1); intros [= <- <-]; [reflexivity|now left]. }
  destruct (try_except (py_float _) _ _) as [cpu_seconds|e2]; [|intros [= <- <-]; now left].
  destruct (observe pid_int cpu_seconds interval (cpu_count h) previous) as [p1 [cp|e3]] eqn:Hobs;
    apply observe_table in Hobs; subst p1.
  - destruct (try_except _ _ None) as [memory_mb|e4]; intros [= <- <-].
    + cbn [pid]. eauto.
    + right. eauto.
  - intros [= <- <-]. now left.
Qed.

Lemma process_row_skips `{PyLib} (h : host) (process : json) (interval : float)
    (previous previous' : gmap Z float) :
  process_row h process interval previous = (previous', Return None) ->
  sampled process = false.
Proof.
  unfold process_row.
  destruct process as [| | | | | |fields]; try reflexivity.
  unfold get, sampled. cbn [mbind res_bind].
  destruct (is_None (dict_get fields "Id" JNull)); [reflexivity|].
  destruct (is_None (dict_get fields "ProcessName" JNull)); [reflexivity|].
  cbn [orb negb andb].
  destruct (py_int _) as [pid_int|e1]; [|reflexivity].
  destruct (try_except (py_float _) _ _) as [cpu_seconds|e2]; [|discriminate].
  destruct (observe _ _ _ _ _) as [p1 [cp|e3]]; [|discriminate].
  destruct (try_except _ _ None) as [memory_mb|e4]; discriminate.
Qed.

Lemma process_row_sample `{PyLib} (h : host) (process : json) (interval : float)
    (previous previous' : gmap Z float) (s : process_sample) :
  process_row h process interval previous = (previous', Return (Some s)) ->
  sampled process = true
  /\ sample_of_row process s
  /\ (previous !! pid s = None -> cpu_percent s = None).
Proof.
  unfold process_row.
  destruct process as [| | | | | |fields]; try discriminate.
  unfold get, sampled. cbn [mbind res_bind].
  destruct (is_None (dict_get fields "Id" JNull)) eqn:Hid; [discriminate|].
  destruct (is_None (dict_get fields "ProcessName" JNull)) eqn:Hname; [discriminate|].
  cbn [orb negb andb].
  destruct (py_int _) as [pid_int|e1] eqn:Hpid.
  2:{ destruct (caught_by _ e1); discriminate. }
  destruct (try_except (py_float _) _ _) as [cpu_seconds|e2]; [|discriminate].
  destruct (observe pid_int cpu_seconds interval (cpu_count h) previous) as [p1 [cp|e3]] eqn:Hobs;
    [|discriminate].
  destruct (try_except _ _ None) as [memory_mb|e4]; [|discriminate].
  intros [= <- <-]. cbn [pid cpu_percent name].
  split; [reflexivity|]. split.
  - exists fields. repeat split; assumption.
  - intros Hp. rewrite observe_first in Hobs by exact Hp. congruence.
Qed.

Lemma process_row_not_negative `{PyLib} (h : host) (process : json) (interval : float)
    (previous previous' : gmap Z float) (s : process_sample) :
  valid_core_count h ->
  process_row h process interval previous = (previous', Return (Some s)) ->
  not_negative_percent s.
Proof.
  intros Hcores. unfold process_row.
  destruct (_ ≫= _) as [[[[pid_value name_value] working_set] cpu_time]|e0]; [|discriminate].
  destruct (_ || _); [discriminate|].
  destruct (py_int pid_value) as [pid_int|e1].
  2:{ destruct (caught_by _ e1); discriminate. }
  destruct (try_except (py_float _) _ _) as [cpu_seconds|e2]; [|discriminate].
  destruct (observe pid_int cpu_seconds interval (cpu_count h) previous) as [p1 [cp|e3]] eqn:Hobs;
    [|discriminate].
  destruct (try_except _ _ None) as [memory_mb|e4]; [|discriminate].
  intros [= <- <-]. unfold not_negative_percent. cbn [cpu_percent].
  destruct cp as [v|]; [|exact I].
  destruct (previous !! pid_int) as [p|] eqn:Hp;
    [|rewrite observe_first in Hobs by exact Hp; congruence].
  destruct (0 <? interval)%float eqn:He;
    [|rewrite observe_not_positive in Hobs by exact He; congruence].
  destruct (observe_later pid_int cpu_seconds interval p (cpu_count h) previous Hp He
              (valid_cpu_count h Hcores)) as (v' & Hobs' & Hnn & _).
  congruence.
Qed.

Lemma process_rows_table `{PyLib} (h : host) (rows : list json) (interval : float) :
  forall (previous previous' : gmap Z float) (results : list process_sample)
         (r : res (list process_sample)),
  process_rows h rows interval previous results = (previous', r) ->
  (forall k, is_Some (previous !! k) -> is_Some (previous' !! k))
  /\ forall samples, r = Return samples ->
       exists new, samples = (results ++ new)%list
         /\ (forall s, In s new -> is_Some (previous' !! pid s))
         /\ (forall k, ~ In k (map pid new) -> previous' !! k = previous !! k).
Proof.
  induction rows as [|row rows IH]; intros previous previous' results r; cbn [process_rows].
  - intros [= <- <-]. split; [auto|]. intros samples [= <-]. exists [].
    rewrite app_nil_r. split; [reflexivity|]. split; [intros s []|reflexivity].
  - destruct (process_row h row interval previous) as [p1 [o|e]] eqn:Hrow;
      apply process_row_table in Hrow.
    + intros Hrest. apply IH in Hrest as [Hkeep Hret].
      destruct o as [s|].
      * destruct Hrow as [c ->]. split.
        -- intros k Hk. apply Hkeep.
           destruct (decide (k = pid s)) as [->|Hne];
             [rewrite lookup_insert_eq; eauto|rewrite lookup_insert_ne by congruence; exact Hk].
        -- intros samples Hs. destruct (Hret samples Hs) as (new & -> & Hin & Hout).
           exists (s :: new). rewrite <- app_assoc. split; [reflexivity|]. split.
           ++ intros s' [Heq|Hs']; [subst s'|auto]. apply Hkeep. rewrite lookup_insert_eq. eauto.
           ++ intros k Hk. cbn [map In] in Hk. rewrite Hout by tauto.
              apply lookup_insert_ne. intros Heq. apply Hk. now left.
      * subst p1. split; [exact Hkeep|exact Hret].
    + intros [= <- <-]. split; [|discriminate].
      intros k Hk. destruct Hrow as [->|(k' & c & ->)]; [exact Hk|].
      destruct (decide (k = k')) as [->|Hne];
        [rewrite lookup_insert_eq; eauto|rewrite lookup_insert_ne by congruence; exact Hk].
Qed.

Lemma process_rows_samples `{PyLib} (h : host) (rows : list json) (interval : float) :
  forall (previous previous' : gmap Z float) (results samples : list process_sample),
  process_rows h rows interval previous results = (previous', Return samples) ->
  exists new, samples = (results ++ new)%list
    /\ Forall2 sample_of_row (List.filter sampled rows) new
    /\ forall before s after, new = (before ++ s :: after)%list ->
         first_sight previous before s -> cpu_percent s = None.
Proof.
  induction rows as [|row rows IH]; intros previous previous' results samples;
    cbn [process_rows].
  - intros [= <- <-]. exists []. rewrite app_nil_r.
    split; [reflexivity|]. split; [constructor|]. intros [|? ?] ? ?; discriminate.
  - destruct (process_row h row interval previous) as [p1 [o|e]] eqn:Hrow; [|discriminate].
    intros Hrest. apply IH in Hrest as (new & -> & Hfrom & Hfirst).
    pose proof (process_row_table _ _ _ _ _ _ Hrow) as Htable.
    destruct o as [s|].
    + destruct (process_row_sample _ _ _ _ _ _ Hrow) as (Hkept & Hof & Hnew).
      destruct Htable as [c ->].
      exists (s :: new). rewrite <- app_assoc.
      split; [reflexivity|]. cbn [List.filter]. rewrite Hkept.
      split; [now constructor|].
      intros [|s0 before] s' after Heq [Hp Hb].
      * injection Heq as <- _. auto.
      * injection Heq as <- ->. apply (Hfirst before s' after eq_refl).
        cbn [map In] in Hb. split; [|tauto].
        rewrite lookup_insert_ne by (intros Heq; apply Hb; now left). exact Hp.
    + subst p1. exists new. split; [reflexivity|].
      cbn [List.filter]. rewrite (process_row_skips _ _ _ _ _ Hrow). auto.
Qed.

Lemma process_rows_not_negative `{PyLib} (h : host) (rows : list json) (interval : float) :
  valid_core_count h ->
  forall (previous previous' : gmap Z float) (results samples : list process_sample),
  process_rows h rows interval previous results = (previous', Return samples) ->
  Forall not_negative_percent results -> Forall not_negative_percent samples.
Proof.
  intros Hcores.
  induction rows as [|row rows IH]; intros previous previous' results samples;
    cbn [process_rows].
  - now intros [= <- <-].
  - destruct (process_row h row interval previous) as [p1 [o|e]] eqn:Hrow; [|discriminate].
    intros Hrest Hres. apply (IH _ _ _ _ Hrest).
    destruct o as [s|]; [|exact Hres].
    apply Forall_app. split; [exact Hres|].
    constructor; [|constructor]. eapply process_row_not_negative; eauto.
Qed.

(** X4. [_collect_processes] never removes a pid from [_PREVIOUS_CPU_TIMES]:
    every pid that has a reading before the call has one after it, whether
    the call returns or raises.  When it returns, every pid in the returned
    list has a reading, and the readings of the pids that are not in the list
    are the ones they had before. *)
Theorem cpu_times_kept `{PyLib} (h : host) (cfg : config) (interval : float)
    (previous : gmap Z float) :
  let run := _collect_processes h cfg interval previous in
  (forall k, is_Some (previous !! k) -> is_Some (run.1 !! k))
  /\ forall samples, run.2 = Return samples ->
       (forall s, In s samples -> is_Some (run.1 !! pid s))
       /\ (forall k, ~ In k (map pid samples) -> run.1 !! k = previous !! k).
Proof.
  cbv zeta. unfold _collect_processes.
  destruct (query_rows h (processes_script cfg)) as [[rows|]|e]; cbn [fst snd].
  - destruct (process_rows h rows interval previous []) as [previous' r] eqn:Hrows.
    apply process_rows_table in Hrows as [Hkeep Hret]. cbn [fst snd].
    split; [exact Hkeep|]. intros samples Hs.
    destruct (Hret samples Hs) as (new & -> & Hin & Hout). now split.
  - split; [auto|]. intros samples [= <-]. split; [intros s []|reflexivity].
  - split; [auto|]. discriminate.
Qed.

Lemma cpu_times_kept_witness :
  let run := _collect_processes (H := reads_processes sample_ranked)
               ranking_host two_processes 30 known_pids in
  is_Some (run.1 !! 9) /\ is_Some (run.1 !! 2) /\ run.1 !! 9 = known_pids !! 9.
Proof.
  cbv zeta.
  destruct (cpu_times_kept (H := reads_processes sample_ranked)
              ranking_host two_processes 30 known_pids) as [Hkeep Hret].
  split; [apply Hkeep; vm_compute; eauto|].
  edestruct Hret as [Hin Hout]; [vm_compute; reflexivity|].
  split.
  - apply (Hin {| pid := 2; name := "b"; cpu_percent := None; memory_mb := Some 1%float |}).
    left. reflexivity.
  - apply Hout. cbn. intros [Heq|[Heq|[]]]; discriminate Heq.
Defined.

(** X5. The list [_collect_processes] returns has one sample for each row of
    the query's document that has an [Id] and a [ProcessName] and whose [Id]
    converts to an integer, in the order of the rows; the sample carries that
    integer as its pid and the text of [ProcessName] as its name.  The other
    rows are skipped. *)
Theorem samples_follow_rows `{PyLib} (h : host) (cfg : config) (interval : float)
    (previous previous' : gmap Z float) (samples : list process_sample) :
  _collect_processes h cfg interval previous = (previous', Return samples) ->
  Forall2 sample_of_row (List.filter sampled (rows_read h (processes_script cfg))) samples.
Proof.
  unfold _collect_processes, rows_read.
  destruct (query_rows h (processes_script cfg)) as [[rows|]|e].
  - intros Hrows. apply process_rows_samples in Hrows as (new & -> & Hfrom & _). exact Hfrom.
  - intros [= <- <-]. constructor.
  - discriminate.
Qed.

Lemma samples_follow_rows_witness :
  exists previous' samples,
    _collect_processes (H := reads_processes sample_ranked)
      ranking_host two_processes 30 known_pids = (previous', Return samples)
    /\ map pid samples = [2; 1]
    /\ Forall2 (sample_of_row (H := reads_processes sample_ranked))
         (List.filter (sampled (H := reads_processes sample_ranked))
            (rows_read (H := reads_processes sample_ranked)
               ranking_host (processes_script two_processes)))
         samples.
Proof.
  eexists. eexists. split; [vm_compute; reflexivity|]. split; [reflexivity|].
  eapply (samples_follow_rows (H := reads_processes sample_ranked)
            ranking_host two_processes 30 known_pids).
  vm_compute. reflexivity.
Defined.

(** X6. A process seen for the first time has no utilisation: in the list
    [_collect_processes] returns, a sample whose pid has no reading in
    [_PREVIOUS_CPU_TIMES] before the call and is not the pid of an earlier
    sample of the list has [cpu_percent] [None]. *)
Theorem first_sight_unrated `{PyLib} (h : host) (cfg : config) (interval : float)
    (previous previous' : gmap Z float) (before after : list process_sample)
    (s : process_sample) :
  _collect_processes h cfg interval previous = (previous', Return (before ++ s :: after)%list) ->
  first_sight previous before s ->
  cpu_percent s = None.
Proof.
  unfold _collect_processes.
  destruct (query_rows h (processes_script cfg)) as [[rows|]|e].
  - intros Hrows. apply process_rows_samples in Hrows as (new & Heq & _ & Hfirst).
    cbn [app] in Heq. subst new. eauto.
  - intros [= _ Heq]. now destruct before.
  - discriminate.
Qed.

Lemma first_sight_unrated_witness :
  first_sight known_pids []
    {| pid := 2; name := "b"; cpu_percent := None; memory_mb := Some 1%float |}
  /\ cpu_percent
       {| pid := 2; name := "b"; cpu_percent := None; memory_mb := Some 1%float |} = None.
Proof.
  assert (Hfirst : first_sight known_pids []
            {| pid := 2; name := "b"; cpu_percent := None; memory_mb := Some 1%float |}).
  { split; [vm_compute; reflexivity|intros []]. }
  split; [exact Hfirst|].
  eapply (first_sight_unrated (H := reads_processes sample_ranked)
            ranking_host two_processes 30 known_pids _ [] _ _); [|exact Hfirst].
  vm_compute. reflexivity.
Defined.

(** X7. On a host whose core count is [None] or between 0 and 2^63 - 1, no
    sample in the list [_collect_processes] returns has a negative
    [cpu_percent]. *)
Theorem samples_not_negative `{PyLib} (h : host) (cfg : config) (interval : float)
    (previous previous' : gmap Z float) (samples : list process_sample) :
  valid_core_count h ->
  _collect_processes h cfg interval previous = (previous', Return samples) ->
  Forall not_negative_percent samples.
Proof.
  intros Hcores. unfold _collect_processes.
  destruct (query_rows h (processes_script cfg)) as [[rows|]|e].
  - intros Hrows. eapply process_rows_not_negative; eauto.
  - intros [= <- <-]. constructor.
  - discriminate.
Qed.

Lemma samples_not_negative_witness :
  exists previous' samples,
    _collect_processes (H := reads_processes sample_ranked)
      ranking_host two_processes 30 known_pids = (previous', Return samples)
    /\ map cpu_percent samples = [None; Some 2.5%float]
    /\ Forall not_negative_percent samples.
Proof.
  eexists. eexists. split; [vm_compute; reflexivity|]. split; [reflexivity|].
  eapply (samples_not_negative (H := reads_processes sample_ranked)
            ranking_host two_processes 30 known_pids).
  - unfold valid_core_count. simpl. lia.
  - vm_compute. reflexivity.
Defined.

(** ** The order of the process list *)






(** ** Disks and events, row by row *)

Lemma disk_row_reports `{PyLib} (disk : json) (r : option disk_usage) :
  disk_row disk = Return r ->
  match r with
  | Some d => reported disk = true /\ disk_of_row disk d
  | None => reported disk = false
  end.
Proof.
  unfold disk_row. destruct disk as [| | | | | |fields]; try discriminate.
  unfold get, reported. cbn [mbind res_bind].
  destruct (is_None (dict_get fields "DeviceID" JNull)) eqn:Hdevice;
    [intros [= <-]; reflexivity|].
  destruct (is_None (dict_get fields "Size" JNull)) eqn:Hsize;
    [intros [= <-]; reflexivity|].
  destruct (is_None (dict_get fields "FreeSpace" JNull)) eqn:Hfree;
    [intros [= <-]; reflexivity|].
  cbn [orb negb andb]. unfold try_except.
  destruct (py_float (dict_get fields "Size" JNull)) as [total|e1] eqn:Htotal;
    cbn [mbind res_bind].
  - destruct (py_float (dict_get fields "FreeSpace" JNull)) as [free|e2] eqn:Hfree';
      cbn [mbind res_bind].
    + intros [= <-]. split; [reflexivity|]. exists fields. cbn [device disk_total_bytes free_bytes].
      repeat split; assumption.
    + destruct (caught_by _ e2); [|discriminate]. intros [= <-]. reflexivity.
  - destruct (caught_by _ e1); [|discriminate]. intros [= <-]. reflexivity.
Qed.

Lemma disk_rows_report `{PyLib} (rows : list json) :
  forall (result entries : list disk_usage),
  disk_rows rows result = Return entries ->
  exists new, entries = (result ++ new)%list
    /\ Forall2 disk_of_row (List.filter reported rows) new.
Proof.
  induction rows as [|row rows IH]; intros result entries; cbn [disk_rows].
  - intros [= <-]. exists []. rewrite app_nil_r. split; [reflexivity|constructor].
  - destruct (disk_row row) as [r|e] eqn:Hrow; cbn [mbind res_bind]; [|discriminate].
    intros Hrest. apply IH in Hrest as (new & -> & Hnew).
    apply disk_row_reports in Hrow. cbn [List.filter]. destruct r as [d|].
    + destruct Hrow as [-> Hof]. exists (d :: new). rewrite <- app_assoc.
      split; [reflexivity|now constructor].
    + rewrite Hrow. eauto.
Qed.

Lemma event_row_fields `{PyLib} (event : json) (r : event_record) :
  event_row event = Return r ->
  is_object event = true /\ r = event_of_fields (object_fields event).
Proof.
  unfold event_row. destruct event as [| | | | | |fields]; try discriminate.
  unfold get. cbn [mbind res_bind]. intros [= <-]. split; reflexivity.
Qed.

Lemma event_rows_fields `{PyLib} (rows : list json) :
  forall (result records : list event_record),
  event_rows rows result = Return records ->
  Forall (fun row => is_object row = true) rows
  /\ records = (result ++ map (fun row => event_of_fields (object_fields row)) rows)%list.
Proof.
  induction rows as [|row rows IH]; intros result records; cbn [event_rows].
  - intros [= <-]. split; [constructor|]. cbn [map]. now rewrite app_nil_r.
  - destruct (event_row row) as [r|e] eqn:Hrow; cbn [mbind res_bind]; [|discriminate].
    intros Hrest. apply IH in Hrest as [Hall ->].
    apply event_row_fields in Hrow as [Hobj ->].
    split; [now constructor|]. cbn [map]. now rewrite <- app_assoc.
Qed.

(** X8. The list [_collect_disks] returns has one entry for each row of the
    query's document in which [DeviceID], [Size] and [FreeSpace] are there
    and both sizes convert to a number, in the order of the rows; the entry
    carries the text of [DeviceID] and the two converted sizes.  The other
    rows are skipped, and nothing is listed when the query gives nothing to
    read. *)
Theorem disks_follow_rows `{PyLib} (h : host) (entries : list disk_usage) :
  _collect_disks h = Return entries ->
  Forall2 disk_of_row (List.filter reported (rows_read h disks_script)) entries.
Proof.
  unfold _collect_disks, rows_read.
  destruct (query_rows h disks_script) as [[rows|]|e]; cbn [mbind res_bind].
  - intros Hrows. apply disk_rows_report in Hrows as (new & -> & Hnew). exact Hnew.
  - intros [= <-]. constructor.
  - discriminate.
Qed.

(** X9. [_collect_events] drops no row: when it returns, every row of the
    query's document is an object and the list has one record for each row,
    in the order of the rows, with the row's [TimeCreated],
    [LevelDisplayName], [ProviderName] and [Message] as they are ([None] when
    missing) and the text of its [Id] ([None] when missing or null). *)
Theorem events_follow_rows `{PyLib} (h : host) (cfg : config) (records : list event_record) :
  _collect_events h cfg = Return records ->
  Forall (fun row => is_object row = true) (rows_read h (events_script cfg))
  /\ records = map (fun row => event_of_fields (object_fields row))
                   (rows_read h (events_script cfg)).
Proof.
  unfold _collect_events, rows_read.
  destruct (query_rows h (events_script cfg)) as [[rows|]|e]; cbn [mbind res_bind].
  - intros Hrows. now apply event_rows_fields in Hrows.
  - intros [= <-]. split; constructor.
  - discriminate.
Qed.

Lemma disks_follow_rows_witness :
  exists entries,
    _collect_disks (H := reads "<disk rows>" disk_document)
      (host_running (prints_text disks_script "<disk rows>") (Some 4) (Response 200))
    = Return entries
    /\ map device entries = ["C:"]
    /\ Forall2 (disk_of_row (H := reads "<disk rows>" disk_document))
         (List.filter (reported (H := reads "<disk rows>" disk_document))
            (rows_read (H := reads "<disk rows>" disk_document)
               (host_running (prints_text disks_script "<disk rows>") (Some 4) (Response 200))
               disks_script))
         entries.
Proof.
  eexists. split; [vm_compute; reflexivity|]. split; [reflexivity|].
  apply (disks_follow_rows (H := reads "<disk rows>" disk_document)).
  vm_compute. reflexivity.
Defined.

Lemma events_follow_rows_witness :
  exists records,
    _collect_events (H := reads "<event rows>" event_document)
      (host_running (prints_text (events_script default_config) "<event rows>")
         (Some 4) (Response 200))
      default_config
    = Return records
    /\ map id records = [Some "7036"]
    /\ map message records = [JNull]
    /\ records
       = map (fun row => event_of_fields (H := reads "<event rows>" event_document)
                           (object_fields row))
           (rows_read (H := reads "<event rows>" event_document)
              (host_running (prints_text (events_script default_config) "<event rows>")
                 (Some 4) (Response 200))
              (events_script default_config)).
Proof.
  eexists. split; [vm_compute; reflexivity|]. split; [reflexivity|]. split; [reflexivity|].
  apply (events_follow_rows (H := reads "<event rows>" event_document)).
  vm_compute. reflexivity.
Defined.

(** ** Utilisation between two stored readings *)

Lemma observe_local (pid : Z) (c e : float) (n : Z) (previous1 previous2 : gmap Z float) :
  previous1 !! pid = previous2 !! pid ->
  (observe pid c e n previous1).2 = (observe pid c e n previous2).2.
Proof.
  intros Heq. unfold observe. rewrite Heq. destruct (previous2 !! pid) as [p|]; [|reflexivity].
  destruct (0 <? e)%float; [|reflexivity].
  destruct (_ ≫= _) as [v|e']; reflexivity.
Qed.

Lemma process_row_rate `{PyLib} (h : host) (process : json) (interval : float)
    (previous previous' : gmap Z float) (s : process_sample) :
  process_row h process interval previous = (previous', Return (Some s)) ->
  exists c, previous' = <[pid s := c]> previous
    /\ (observe (pid s) c interval (cpu_count h) previous).2 = Return (cpu_percent s).
Proof.
  unfold process_row.
  destruct (_ ≫= _) as [[[[pid_value name_value] working_set] cpu_time]|e0]; [|discriminate].
  destruct (_ || _); [discriminate|].
  destruct (py_int pid_value) as [pid_int|e1].
  2:{ destruct (caught_by _ e1); discriminate. }
  destruct (try_except (py_float _) _ _) as [cpu_seconds|e2]; [|discriminate].
  destruct (observe pid_int cpu_seconds interval (cpu_count h) previous) as [p1 [cp|e3]] eqn:Hobs;
    [|discriminate].
  destruct (try_except _ _ None) as [memory_mb|e4]; [|discriminate].
  intros [= <- <-]. cbn [pid cpu_percent]. exists cpu_seconds.
  rewrite Hobs. split; [|reflexivity]. now apply observe_table in Hobs.
Qed.

Lemma process_rows_rate `{PyLib} (h : host) (rows : list json) (interval : float) :
  forall (previous previous' : gmap Z float) (results samples : list process_sample),
  process_rows h rows interval previous results = (previous', Return samples) ->
  exists new, samples = (results ++ new)%list
    /\ forall before s after, new = (before ++ s :: after)%list ->
         ~ In (pid s) (map pid before) ->
         exists c,
           (observe (pid s) c interval (cpu_count h) previous).2 = Return (cpu_percent s)
           /\ (~ In (pid s) (map pid after) -> previous' !! pid s = Some c).
Proof.
  induction rows as [|row rows IH]; intros previous previous' results samples;
    cbn [process_rows].
  - intros [= <- <-]. exists []. rewrite app_nil_r.
    split; [reflexivity|]. intros [|? ?] ? ?; discriminate.
  - destruct (process_row h row interval previous) as [p1 [o|e]] eqn:Hrow; [|discriminate].
    intros Hrest. pose proof (process_rows_table _ _ _ _ _ _ _ Hrest) as [_ Htable].
    apply IH in Hrest as (new & -> & Hrate).
    destruct (Htable _ eq_refl) as (new' & Heq & _ & Hout).
    apply app_inv_head in Heq. subst new'.
    destruct o as [s0|].
    + apply process_row_rate in Hrow as (c0 & -> & Hobs).
      exists (s0 :: new). rewrite <- app_assoc. split; [reflexivity|].
      intros [|s1 before] s after Heq Hb.
      * injection Heq as <- <-. exists c0. split; [exact Hobs|].
        intros Ha. rewrite Hout by exact Ha. apply lookup_insert_eq.
      * injection Heq as <- ->. cbn [map In] in Hb.
        destruct (Hrate before s after eq_refl) as (c & Hobs' & Hlast); [tauto|].
        exists c. split; [|exact Hlast]. rewrite <- Hobs'. apply observe_local.
        symmetry. apply lookup_insert_ne. intros Heq. apply Hb. now left.
    + apply process_row_table in Hrow. subst p1. exists new. split; [reflexivity|exact Hrate].
Qed.

Lemma collect_processes_rate `{PyLib} (h : host) (cfg : config) (interval : float)
    (previous previous' : gmap Z float) (before after : list process_sample)
    (s : process_sample) (p : float) :
  valid_core_count h ->
  (0 <? interval)%float = true ->
  _collect_processes h cfg interval previous = (previous', Return (before ++ s :: after)%list) ->
  ~ In (pid s) (map pid before) ->
  ~ In (pid s) (map pid after) ->
  previous !! pid s = Some p ->
  exists c cores,
    previous' !! pid s = Some c
    /\ Py.float_of_int (cpu_count h) = Return cores
    /\ cpu_percent s = Some (Py.max (c - p) 0 / interval * 100 / cores)%float.
Proof.
  intros Hcores He. unfold _collect_processes.
  destruct (query_rows h (processes_script cfg)) as [[rows|]|e].
  - intros Hrows Hb Ha Hp. apply process_rows_rate in Hrows as (new & Heq & Hrate).
    cbn [app] in Heq. subst new.
    destruct (Hrate before s after eq_refl Hb) as (c & Hobs & Hlast).
    destruct (float_of_int_finite (cpu_count h) (valid_cpu_count h Hcores))
      as (cores & Hfloat & Hpos & _).
    exists c, cores. split; [auto|]. split; [exact Hfloat|].
    rewrite (observe_next _ c interval _ previous p cores Hp He Hfloat) in Hobs.
    + cbn [snd] in Hobs. congruence.
    + exact Hpos.
  - intros [= _ Heq]. now destruct before.
  - discriminate.
Qed.

Lemma query_rows_nothing `{PyLib} (h : host) (script : string) :
  gives_nothing_to_read h script -> query_rows h script = Return None.
Proof.
  intros (rc & out & err & Hrun & Hwhy). unfold query_rows, _run_powershell, _run_command.
  rewrite Hrun. destruct (rc =? 0) eqn:Hrc; cbn [negb]; [|reflexivity].
  destruct (String.eqb (strip out) "") eqn:Hempty; [reflexivity|].
  destruct Hwhy as [Hne|[Hout|[(e & Hjson & Hc)|(document & Hjson & Hrows)]]].
  - apply Z.eqb_eq in Hrc. contradiction.
  - rewrite Hout in Hempty. discriminate.
  - now rewrite Hjson, Hc.
  - now rewrite Hjson, Hrows.
Qed.

Lemma collect_snapshot_keeps `{PyLib} (h : host) (cfg : config) (now : float) (g : globals) :
  query_rows h (processes_script cfg) = Return None ->
  (_collect_snapshot h cfg now g).1
  = {| _PREVIOUS_CPU_TIMES := _PREVIOUS_CPU_TIMES g; _PREVIOUS_COLLECTED_AT := Some now |}.
Proof.
  intros Hq. unfold _collect_snapshot, _collect_processes. rewrite Hq.
  destruct (_ ≫= _) as [[[cpu mem] disks]|e]; reflexivity.
Qed.

(** X10. The utilisation in a snapshot is taken between two stored readings.
    When the previous collection was at [t0], the clock has advanced since,
    and the core count is [None] or between 0 and 2^63 - 1, a process that
    is listed once in the snapshot and had the reading [c0] in
    [_PREVIOUS_CPU_TIMES] before the cycle has the reading [c] after it and
    the utilisation [max(c - c0, 0) / (now - t0) * 100 / cores]. *)
Theorem snapshot_utilization `{PyLib} (h : host) (cfg : config) (now t0 : float)
    (g g' : globals) (s : snapshot) (before after : list process_sample)
    (p : process_sample) (c0 : float) :
  valid_core_count h ->
  _PREVIOUS_COLLECTED_AT g = Some t0 ->
  (0 <? now - t0)%float = true ->
  _collect_snapshot h cfg now g = (g', Return s) ->
  processes s = (before ++ p :: after)%list ->
  ~ In (pid p) (map pid before) ->
  ~ In (pid p) (map pid after) ->
  _PREVIOUS_CPU_TIMES g !! pid p = Some c0 ->
  exists c cores,
    _PREVIOUS_CPU_TIMES g' !! pid p = Some c
    /\ Py.float_of_int (cpu_count h) = Return cores
    /\ cpu_percent p = Some (Py.max (c - c0) 0 / (now - t0) * 100 / cores)%float.
Proof.
  intros Hcores Hat He Hs Hlist Hb Ha Hp.
  apply collect_snapshot_processes in Hs. rewrite Hat, Hlist in Hs. cbn [snapshot_interval] in Hs.
  eapply collect_processes_rate; eauto.
Qed.

Lemma snapshot_utilization_witness :
  exists c cores,
    _PREVIOUS_CPU_TIMES
      (_collect_snapshot (H := reads_processes sample_ranked)
         ranking_host two_processes 1030 read_at_1000).1 !! pid (sample_a 2.5) = Some c
    /\ Py.float_of_int (cpu_count ranking_host) = Return cores
    /\ cpu_percent (sample_a 2.5) = Some (Py.max (c - 2) 0 / (1030 - 1000) * 100 / cores)%float.
Proof.
  eapply (snapshot_utilization (H := reads_processes sample_ranked)
            ranking_host two_processes 1030 1000 read_at_1000 _ _ [sample_b] []
            (sample_a 2.5) 2).
  - unfold valid_core_count. simpl. lia.
  - reflexivity.
  - vm_compute. reflexivity.
  - vm_compute. reflexivity.
  - reflexivity.
  - cbn. intros [Heq|[]]. discriminate Heq.
  - intros [].
  - vm_compute. reflexivity.
Defined.

(** X11. A cycle whose process query gives nothing to read - a status that
    is not 0, no output, output that is not JSON, or a document that is
    neither an object nor an array - leaves the readings in
    [_PREVIOUS_CPU_TIMES] as they are but moves [_PREVIOUS_COLLECTED_AT] to
    its own time [now1].  The next cycle, at [now2], therefore rates a process
    by the CPU time it used since the reading stored before the failed cycle,
    divided by [now2 - now1], the time since the failed cycle. *)
Theorem failed_query_keeps_readings `{PyLib} (h1 h2 : host) (cfg : config) (now1 now2 : float)
    (g g2 : globals) (s : snapshot) (before after : list process_sample)
    (p : process_sample) (c0 : float) :
  gives_nothing_to_read h1 (processes_script cfg) ->
  valid_core_count h2 ->
  (0 <? now2 - now1)%float = true ->
  _collect_snapshot h2 cfg now2 (_collect_snapshot h1 cfg now1 g).1 = (g2, Return s) ->
  processes s = (before ++ p :: after)%list ->
  ~ In (pid p) (map pid before) ->
  ~ In (pid p) (map pid after) ->
  _PREVIOUS_CPU_TIMES g !! pid p = Some c0 ->
  (_collect_snapshot h1 cfg now1 g).1
  = {| _PREVIOUS_CPU_TIMES := _PREVIOUS_CPU_TIMES g; _PREVIOUS_COLLECTED_AT := Some now1 |}
  /\ exists c cores,
       _PREVIOUS_CPU_TIMES g2 !! pid p = Some c
       /\ Py.float_of_int (cpu_count h2) = Return cores
       /\ cpu_percent p = Some (Py.max (c - c0) 0 / (now2 - now1) * 100 / cores)%float.
Proof.
  intros Hfail Hcores He Hs Hlist Hb Ha Hp.
  apply query_rows_nothing in Hfail.
  pose proof (collect_snapshot_keeps h1 cfg now1 g Hfail) as Hkeep.
  split; [exact Hkeep|]. rewrite Hkeep in Hs.
  apply collect_snapshot_processes in Hs. rewrite Hlist in Hs.
  cbn [snapshot_interval _PREVIOUS_COLLECTED_AT _PREVIOUS_CPU_TIMES] in Hs.
  eapply collect_processes_rate; eauto.
Qed.

Lemma failed_query_keeps_readings_witness :
  (_collect_snapshot (H := reads_processes sample_ranked)
     failing_host two_processes 1030 read_at_1000).1
  = {| _PREVIOUS_CPU_TIMES := known_pids; _PREVIOUS_COLLECTED_AT := Some 1030%float |}
  /\ exists c cores,
       _PREVIOUS_CPU_TIMES
         (_collect_snapshot (H := reads_processes sample_ranked)
            ranking_host two_processes 1045
            (_collect_snapshot (H := reads_processes sample_ranked)
               failing_host two_processes 1030 read_at_1000).1).1 !! pid (sample_a 5)
       = Some c
       /\ Py.float_of_int (cpu_count ranking_host) = Return cores
       /\ cpu_percent (sample_a 5) = Some (Py.max (c - 2) 0 / (1045 - 1030) * 100 / cores)%float.
Proof.
  eapply (failed_query_keeps_readings (H := reads_processes sample_ranked)
            failing_host ranking_host two_processes 1030 1045 read_at_1000 _ _
            [sample_b] [] (sample_a 5) 2).
  - exists 1, "", "not available". split; [reflexivity|]. left. discriminate.
  - unfold valid_core_count. simpl. lia.
  - vm_compute. reflexivity.
  - vm_compute. reflexivity.
  - reflexivity.
  - cbn. intros [Heq|[]]. discriminate Heq.
  - intros [].
  - vm_compute. reflexivity.
Defined.

(** ** One turn of the loop *)

Lemma collect_snapshot_agent_id `{PyLib} (h : host) (cfg : config) (now : float)
    (g : globals) (s : snapshot) :
  (_collect_snapshot h cfg now g).2 = Return s -> agent_id s = AGENT_ID cfg.
Proof.
  unfold _collect_snapshot.
  destruct (_ ≫= _) as [[[cpu mem] disks]|e]; [|discriminate].
  destruct (_collect_processes h cfg _ _) as [p' [samples|e]]; [|discriminate].
  cbn [snd]. destruct (_collect_events h cfg) as [events|e]; cbn [mbind res_bind]; [|discriminate].
  destruct (try_except _ _ _) as [ip|e]; cbn [mbind res_bind]; [|discriminate].
  intros [= <-]. reflexivity.
Qed.

Lemma post_snapshot_returns `{PyLib} (h : host) (cfg : config) (payload : snapshot) :
  _post_snapshot h cfg payload = Return tt
  <-> exists body status,
        json_dumps payload = Return body
        /\ urlopen h (ingest_request cfg body) = Response status
        /\ status < 400.
Proof.
  unfold _post_snapshot. split.
  - destruct (json_dumps payload) as [body|e]; cbn [mbind res_bind]; [|discriminate].
    destruct (urlopen h (ingest_request cfg body)) as [status|e] eqn:Hu; [|discriminate].
    destruct (Z.leb_spec 400 status); [discriminate|]. intros _. eauto.
  - intros (body & status & -> & Hu & Hs). cbn [mbind res_bind]. rewrite Hu.
    destruct (Z.leb_spec 400 status); [lia|reflexivity].
Qed.

(** The result of the [try] statement in terms of its two calls. *)
Lemma collect_and_send_result `{PyLib} (h : host) (cfg : config) (clock : cycle_clock)
    (g : globals) :
  (collect_and_send h cfg clock g).2
  = match (s ← (_collect_snapshot h cfg (now clock) g).2;
           _ ← _post_snapshot h cfg s;
           Return s) with
    | Return s =>
        Return (Stdout ("[" +:+ local_time clock +:+ "] Sent metrics for " +:+ agent_id s))
    | Raise exc =>
        if caught_by [Exception] exc
        then Return (Stderr ("Error collecting or sending metrics: " +:+ exn_msg exc))
        else Raise exc
    end.
Proof.
  unfold collect_and_send.
  destruct (_collect_snapshot h cfg (now clock) g) as [g' [s|e]]; cbn [snd mbind res_bind].
  - destruct (_post_snapshot h cfg s) as [[]|e]; cbn [mbind res_bind]; [reflexivity|].
    destruct (caught_by [Exception] e); reflexivity.
  - destruct (caught_by [Exception] e); reflexivity.
Qed.

(** A turn in terms of its [try] statement and of [time.sleep]. *)
Lemma main_cycle_result `{PyLib} (h : host) (cfg : config) (clock : cycle_clock)
    (g : globals) :
  (main_cycle h cfg clock g).2
  = match (collect_and_send h cfg clock g).2 with
    | Raise exc => ([], Raise exc)
    | Return line =>
        (Prints line :: match Py.sleep_check (sleep_time cfg clock) with
                       | Return _ => [Sleeps (sleep_time cfg clock)]
                       | Raise _ => []
                       end,
         time_sleep h (sleep_time cfg clock))
    end.
Proof.
  unfold main_cycle, time_sleep.
  destruct (collect_and_send h cfg clock g) as [g' [line|exc]]; cbn [snd]; [|reflexivity].
  destruct (Py.sleep_check (sleep_time cfg clock)) as [[]|exc]; reflexivity.
Qed.


(** X12. A turn of the loop prints the line [Sent metrics for ...] exactly
    when [_collect_snapshot] returned a snapshot, [json.dumps] serialised it
    and the endpoint answered with a status below 400; the line then names
    [AGENT_ID] after the local time in brackets.  After it the turn calls
    [time.sleep] with [max(POLL_INTERVAL - elapsed, 5)] and ends as that
    call does. *)
Theorem sent_line_iff_delivered `{PyLib} (h : host) (cfg : config) (clock : cycle_clock)
    (g : globals) (text : string) :
  (In (Prints (Stdout text)) (main_cycle h cfg clock g).2.1
   <-> exists s body status,
         (_collect_snapshot h cfg (now clock) g).2 = Return s
         /\ json_dumps s = Return body
         /\ urlopen h (ingest_request cfg body) = Response status
         /\ status < 400
         /\ text = "[" +:+ local_time clock +:+ "] Sent metrics for " +:+ AGENT_ID cfg)
  /\ (In (Prints (Stdout text)) (main_cycle h cfg clock g).2.1 ->
      (main_cycle h cfg clock g).2.2 = time_sleep h (sleep_time cfg clock)).
Proof.
  rewrite main_cycle_result, collect_and_send_result.
  assert (Hprinted : forall line : log_line,
            In (Prints (Stdout text))
               (Prints line :: match Py.sleep_check (sleep_time cfg clock) with
                              | Return _ => [Sleeps (sleep_time cfg clock)]
                              | Raise _ => []
                              end)
            <-> line = Stdout text).
  { intros line. cbn [In]. split.
    - intros [Heq|Hin]; [now injection Heq|].
      destruct (Py.sleep_check _); [destruct Hin as [Hin|[]]; discriminate Hin|destruct Hin].
    - intros ->. now left. }
  destruct ((_collect_snapshot h cfg (now clock) g).2) as [s|e] eqn:Hs; cbn [mbind res_bind].
  - destruct (_post_snapshot h cfg s) as [[]|e] eqn:Hpost; cbn [mbind res_bind].
    + cbn [fst snd]. rewrite Hprinted. split; [|reflexivity]. split.
      * intros [= <-]. apply post_snapshot_returns in Hpost as (body & status & Hd & Hu & Hlt).
        exists s, body, status. rewrite (collect_snapshot_agent_id h cfg (now clock) g s Hs).
        repeat split; auto.
      * intros (s' & body & status & [= <-] & _ & _ & _ & ->).
        now rewrite (collect_snapshot_agent_id h cfg (now clock) g s Hs).
    + destruct (caught_by [Exception] e); cbn [fst snd].
      * rewrite Hprinted. split; [|discriminate]. split; [discriminate|].
        intros (s' & body & status & [= <-] & Hd & Hu & Hlt & _).
        rewrite (proj2 (post_snapshot_returns h cfg s)) in Hpost by eauto. discriminate.
      * split; [|intros []]. split; [intros []|].
        intros (s' & body & status & [= <-] & Hd & Hu & Hlt & _).
        rewrite (proj2 (post_snapshot_returns h cfg s)) in Hpost by eauto. discriminate.
  - destruct (caught_by [Exception] e); cbn [fst snd].
    + rewrite Hprinted. split; [|discriminate]. split; [discriminate|].
      intros (s' & _ & _ & Hs' & _). discriminate Hs'.
    + split; [|intros []]. split; [intros []|].
      intros (s' & _ & _ & Hs' & _). discriminate Hs'.
Qed.

Lemma sent_line_iff_delivered_witness :
  In (Prints (Stdout "[2024-01-01 00:00:00] Sent metrics for host-1"))
     (main_cycle (H := reads_processes sample_ranked) ranking_host two_processes
        quick_cycle initial_globals).2.1.
Proof.
  apply (sent_line_iff_delivered (H := reads_processes sample_ranked) ranking_host
           two_processes quick_cycle initial_globals).
  eexists. exists "{}", 200. split; [vm_compute; reflexivity|].
  split; [reflexivity|]. split; [reflexivity|]. split; [lia|reflexivity].
Defined.

(** ** What ends the loop *)






(** ** The table of CPU times over the turns of the loop *)

Lemma collect_processes_keeps `{PyLib} (h : host) (cfg : config) (interval : float)
    (previous : gmap Z float) (k : Z) :
  is_Some (previous !! k) ->
  is_Some ((_collect_processes h cfg interval previous).1 !! k).
Proof.
  unfold _collect_processes.
  destruct (query_rows h (processes_script cfg)) as [[rows|]|e]; cbn [fst]; auto.
  destruct (process_rows h rows interval previous []) as [previous' r] eqn:Hrows.
  apply process_rows_table in Hrows as [Hkeep _]. cbn [fst]. auto.
Qed.

Lemma main_cycle_state `{PyLib} (h : host) (cfg : config) (clock : cycle_clock)
    (g : globals) :
  (main_cycle h cfg clock g).1 = (_collect_snapshot h cfg (now clock) g).1.
Proof.
  unfold main_cycle, collect_and_send.
  destruct (_collect_snapshot h cfg (now clock) g) as [g' collected].
  repeat case_match; simplify_eq; reflexivity.
Qed.

Lemma collect_snapshot_table `{PyLib} (h : host) (cfg : config) (now : float) (g : globals) :
  _PREVIOUS_CPU_TIMES (_collect_snapshot h cfg now g).1 = _PREVIOUS_CPU_TIMES g
  \/ _PREVIOUS_CPU_TIMES (_collect_snapshot h cfg now g).1
     = (_collect_processes h cfg (snapshot_interval cfg now (_PREVIOUS_COLLECTED_AT g))
          (_PREVIOUS_CPU_TIMES g)).1.
Proof.
  unfold _collect_snapshot.
  destruct (_ ≫= _) as [[[cpu mem] disks]|e]; [|now left].
  destruct (_collect_processes h cfg _ _) as [p' [samples|e]]; now right.
Qed.

Lemma main_cycle_keeps `{PyLib} (h : host) (cfg : config) (clock : cycle_clock)
    (g : globals) (k : Z) :
  is_Some (_PREVIOUS_CPU_TIMES g !! k) ->
  is_Some (_PREVIOUS_CPU_TIMES (main_cycle h cfg clock g).1 !! k).
Proof.
  intros Hk. rewrite main_cycle_state.
  destruct (collect_snapshot_table h cfg (now clock) g) as [->| ->]; [exact Hk|].
  now apply collect_processes_keeps.
Qed.

(** X14. The loop of [main] never forgets a process: a pid that has a reading
    in [_PREVIOUS_CPU_TIMES] has one after any number of turns, whatever the
    hosts answer and whether the turns deliver, fail or let an exception
    through.  The table only grows, by the pids of the processes listed. *)
Theorem readings_never_dropped `{PyLib} (cfg : config) (turns : list (host * cycle_clock))
    (g : globals) (k : Z) :
  is_Some (_PREVIOUS_CPU_TIMES g !! k) ->
  is_Some (_PREVIOUS_CPU_TIMES (main_turns cfg turns g).1 !! k).
Proof.
  revert g. induction turns as [|[h clock] rest IH]; intros g Hk; cbn [main_turns]; [exact Hk|].
  pose proof (main_cycle_keeps h cfg clock g k Hk) as Hkeep.
  destruct (main_cycle h cfg clock g) as [g' [done [[]|e]]]; cbn [fst] in Hkeep; [|exact Hkeep].
  specialize (IH g' Hkeep). destruct (main_turns cfg rest g') as [g'' [later r]]. exact IH.
Qed.

Lemma readings_never_dropped_witness :
  is_Some (_PREVIOUS_CPU_TIMES read_at_1000 !! 9)
  /\ is_Some
       (_PREVIOUS_CPU_TIMES
          (main_turns (H := reads_processes sample_ranked) two_processes
             [(ranking_host, quick_cycle); (failing_host, slow_cycle)] read_at_1000).1 !! 9).
Proof.
  assert (Hk : is_Some (_PREVIOUS_CPU_TIMES read_at_1000 !! 9)) by (vm_compute; eauto).
  split; [exact Hk|].
  apply (readings_never_dropped (H := reads_processes sample_ranked) two_processes
           [(ranking_host, quick_cycle); (failing_host, slow_cycle)] read_at_1000 9 Hk).
Defined.
